(** * Message-send orchestration of open-im-server (internal/api/msg.go)

    A shallow embedding of the message API handlers: envelope construction
    ([newUserSendMsgReq]), the option switches ([SetOptions]), the
    reflective modified-fields diff ([getMsgDataDescriptor],
    [getModifyFields]) and the dispatch handlers ([SendMessage],
    [SendBusinessNotification], [BatchSendMsg], [SendSimpleMessage]).

    The protobuf wire types ([sdkws.MsgData], [msg.SendMsgResp]) and the
    constants of [protocol/constant] come from the protocol module the file
    imports; they are written out here as records and definitions. *)

From Stdlib Require Import ZArith Ascii String List.
From Stdlib Require Import Strings.Byte.
From stdpp Require Import base gmap strings list.

Open Scope Z_scope.
Set Warnings "-register-all".


(** ** Constants of [github.com/openimsdk/protocol/constant] *)
Module constant.
Definition SingleChatType : Z := 1.
Definition ReadGroupChatType : Z := 3.
Definition NotificationChatType : Z := 4.

Definition UserMsgType : Z := 100.
Definition SysMsgType : Z := 200.

Definition Text : Z := 101.
Definition Picture : Z := 102.
Definition Voice : Z := 103.
Definition Video : Z := 104.
Definition File : Z := 105.
Definition AtText : Z := 106.
Definition Custom : Z := 110.
Definition MarkdownText : Z := 118.
Definition OANotification : Z := 1400.
Definition BusinessNotification : Z := 2001.

Definition AdminPlatformID : Z := 10.
Definition MsgSendSuccessed : Z := 1.

Definition IsHistory : string := "history".
Definition IsPersistent : string := "persistent".
Definition IsOfflinePush : string := "offlinePush".
Definition IsSenderSync : string := "senderSync".
Definition IsConversationUpdate : string := "conversationUpdate".
End constant.

(** ** Wire types of the protocol module *)
Module OfflinePushInfo.
Record t := mk {
  Title : string;
  Desc : string;
  Ex : string;
  IOSPushSound : string;
  IOSBadgeCount : bool;
  SignalInfo : string
}.
End OfflinePushInfo.

Global Instance OfflinePushInfo_eq_dec : EqDecision OfflinePushInfo.t.
Proof. solve_decision. Defined.

(** [sdkws.MsgData]; a Go [[]byte] is a [list byte], a [map[string]bool]
    a [gmap string bool], a message pointer an [option]. *)
Module MsgData.
Record t := mk {
  SendID : string;
  RecvID : string;
  GroupID : string;
  ClientMsgID : string;
  ServerMsgID : string;
  SenderPlatformID : Z;
  SenderNickname : string;
  SenderFaceURL : string;
  SessionType : Z;
  MsgFrom : Z;
  ContentType : Z;
  Content : list byte;
  Seq : Z;
  SendTime : Z;
  CreateTime : Z;
  Status : Z;
  IsRead : bool;
  Options : gmap string bool;
  OfflinePushInfo : option OfflinePushInfo.t;
  AtUserIDList : list string;
  AttachedInfo : string;
  Ex : string
}.

(** The zero value of the Go struct: every field a composite literal
    leaves out holds it. *)
Definition zero : t := mk "" "" "" "" "" 0 "" "" 0 0 0 [] 0 0 0 0 false ∅ None [] "" "".
End MsgData.

(** [msg.SendMsgResp]. *)
Module SendMsgResp.
Record t := mk {
  ServerMsgID : string;
  ClientMsgID : string;
  SendTime : Z;
  Modify : option MsgData.t
}.
End SendMsgResp.

(** ** Protobuf reflection *)

(** A [protoreflect.Value] of a field of [MsgData]. *)
Inductive Value :=
  | VString (s : string)
  | VInt (z : Z)
  | VBool (b : bool)
  | VBytes (bs : list byte)
  | VMap (m : gmap string bool)
  | VMsg (o : option OfflinePushInfo.t)
  | VList (l : list string).

Global Instance byte_eq_dec : EqDecision byte := Byte.byte_eq_dec.

Global Instance Value_eq_dec : EqDecision Value.
Proof. solve_decision. Defined.

(** [protoreflect.Value.Equal]: structural equality. *)
Definition Value_Equal (v w : Value) : bool := bool_decide (v = w).

(** A [protoreflect.FieldDescriptor] of a message type [M]: whether the field
    has a JSON name, that name, and the reflective getter
    [ProtoReflect().Get(descriptor)]. *)
Record FieldDescriptor (M : Type) := {
  HasJSONName : bool;
  JSONName : string;
  Get : M -> Value
}.
Arguments HasJSONName {M}.
Arguments JSONName {M}.
Arguments Get {M}.

Definition fd {M} (name : string) (get : M -> Value) : FieldDescriptor M :=
  {| HasJSONName := true; JSONName := name; Get := get |}.

(** [new(sdkws.MsgData).ProtoReflect().Descriptor().Fields()], in field order. *)
Definition MsgDataFields : list (FieldDescriptor MsgData.t) := [
  fd "sendID" (fun m => VString (MsgData.SendID m));
  fd "recvID" (fun m => VString (MsgData.RecvID m));
  fd "groupID" (fun m => VString (MsgData.GroupID m));
  fd "clientMsgID" (fun m => VString (MsgData.ClientMsgID m));
  fd "serverMsgID" (fun m => VString (MsgData.ServerMsgID m));
  fd "senderPlatformID" (fun m => VInt (MsgData.SenderPlatformID m));
  fd "senderNickname" (fun m => VString (MsgData.SenderNickname m));
  fd "senderFaceURL" (fun m => VString (MsgData.SenderFaceURL m));
  fd "sessionType" (fun m => VInt (MsgData.SessionType m));
  fd "msgFrom" (fun m => VInt (MsgData.MsgFrom m));
  fd "contentType" (fun m => VInt (MsgData.ContentType m));
  fd "content" (fun m => VBytes (MsgData.Content m));
  fd "seq" (fun m => VInt (MsgData.Seq m));
  fd "sendTime" (fun m => VInt (MsgData.SendTime m));
  fd "createTime" (fun m => VInt (MsgData.CreateTime m));
  fd "status" (fun m => VInt (MsgData.Status m));
  fd "isRead" (fun m => VBool (MsgData.IsRead m));
  fd "options" (fun m => VMap (MsgData.Options m));
  fd "offlinePushInfo" (fun m => VMsg (MsgData.OfflinePushInfo m));
  fd "atUserIDList" (fun m => VList (MsgData.AtUserIDList m));
  fd "attachedInfo" (fun m => VString (MsgData.AttachedInfo m));
  fd "ex" (fun m => VString (MsgData.Ex m))
].

(** [new(msg.SendMsgResp).ProtoReflect().Descriptor().Fields()]; the
    message-typed [modify] field has no scalar value, its getter is unused. *)
Definition SendMsgRespFields : list (FieldDescriptor SendMsgResp.t) := [
  fd "serverMsgID" (fun r => VString (SendMsgResp.ServerMsgID r));
  fd "clientMsgID" (fun r => VString (SendMsgResp.ClientMsgID r));
  fd "sendTime" (fun r => VInt (SendMsgResp.SendTime r));
  fd "modify" (fun _ => VMsg None)
].

(** ** The descriptor cache: [msgDataDescriptor] behind [sync.Once] *)

(** The package globals [msgDataDescriptor] and [msgDataDescriptorOnce].
    [initRuns] counts the runs of the function given to [Once.Do]; it is
    observation only, the program never reads it. *)
Record Globals := {
  onceDone : bool;
  msgDataDescriptor : list (FieldDescriptor MsgData.t);
  initRuns : nat
}.

Definition initialGlobals : Globals :=
  {| onceDone := false; msgDataDescriptor := []; initRuns := 0 |}.

(** The first loop of the [Once.Do] body: the JSON names of the response's
    fields, the set [skip]. *)
Definition skipStep (skip : gset string) (field : FieldDescriptor SendMsgResp.t) : gset string :=
  if HasJSONName field then {[ JSONName field ]} ∪ skip else skip.

Definition skipSet (respFields : list (FieldDescriptor SendMsgResp.t)) : gset string :=
  fold_left skipStep respFields ∅.

(** The second loop: the fields of [MsgData] with a JSON name not in [skip],
    appended in order. *)
Definition keepStep (skip : gset string) (acc : list (FieldDescriptor MsgData.t))
    (field : FieldDescriptor MsgData.t) : list (FieldDescriptor MsgData.t) :=
  if HasJSONName field then
    if bool_decide (JSONName field ∈ skip) then acc else acc ++ [field]
  else acc.

Definition keptFields (skip : gset string) (fields : list (FieldDescriptor MsgData.t))
  : list (FieldDescriptor MsgData.t) :=
  fold_left (keepStep skip) fields [].

(** The body of the [Once.Do] call. *)
Definition computeMsgDataDescriptor : list (FieldDescriptor MsgData.t) :=
  keptFields (skipSet SendMsgRespFields) MsgDataFields.

Definition getMsgDataDescriptor (g : Globals) : list (FieldDescriptor MsgData.t) * Globals :=
  if onceDone g then (msgDataDescriptor g, g)
  else let d := computeMsgDataDescriptor in
       (d, {| onceDone := true; msgDataDescriptor := d; initRuns := S (initRuns g) |}).

(** [val := respValue.Interface()], with the [content] bytes turned into a
    string. *)
Definition diffValue (name : string) (v : Value) : Value :=
  if String.eqb name "content" then
    match v with VBytes bs => VString (string_of_list_byte bs) | _ => v end
  else v.

(** One iteration of the loop of [getModifyFields]. *)
Definition diffStep (req resp : MsgData.t) (fields : gmap string Value)
    (descriptor : FieldDescriptor MsgData.t) : gmap string Value :=
  let reqValue := Get descriptor req in
  let respValue := Get descriptor resp in
  if negb (Value_Equal reqValue respValue) then
    let name := JSONName descriptor in
    <[ name := diffValue name respValue ]> fields
  else fields.

Definition diffLoop (descs : list (FieldDescriptor MsgData.t)) (req resp : MsgData.t)
  : gmap string Value :=
  fold_left (diffStep req resp) descs ∅.

(** [getModifyFields]: [None] is the nil map. *)
Definition getModifyFields (g : Globals) (req respModify : option MsgData.t)
  : option (gmap string Value) * Globals :=
  match req, respModify with
  | Some req, Some resp =>
      let '(descs, g') := getMsgDataDescriptor g in
      let fields := diffLoop descs req resp in
      (if bool_decide (fields = ∅) then None else Some fields, g')
  | _, _ => (None, g)
  end.

(** ** Request and response types of [pkg/apistruct] *)

(** A JSON value: the [map[string]any] content of a request. *)
Inductive JVal :=
  | JNull
  | JBool (b : bool)
  | JNum (z : Z)
  | JStr (s : string)
  | JArr (l : list JVal)
  | JObj (kvs : list (string * JVal)).

(** The typed containers [getSendMsgReq] decodes the content into; only the
    [AtUserList] of an [AtElem] is read afterwards. *)
Inductive Elem :=
  | TextElem
  | PictureElem
  | SoundElem
  | VideoElem
  | FileElem
  | AtElem (AtUserList : list string)
  | CustomElem
  | MarkdownTextElem
  | OANotificationElem.

(** [apistruct.SendMsg]. *)
Module SendMsg.
Record t := mk {
  SendID : string;
  GroupID : string;
  SenderNickname : string;
  SenderFaceURL : string;
  SenderPlatformID : Z;
  Content : JVal;
  ContentType : Z;
  SessionType : Z;
  IsOnlineOnly : bool;
  NotOfflinePush : bool;
  SendTime : Z;
  OfflinePushInfo : option OfflinePushInfo.t;
  Ex : string
}.

Definition setSessionType (p : t) (st : Z) : t :=
  mk (SendID p) (GroupID p) (SenderNickname p) (SenderFaceURL p)
     (SenderPlatformID p) (Content p) (ContentType p) st (IsOnlineOnly p)
     (NotOfflinePush p) (SendTime p) (OfflinePushInfo p) (Ex p).
End SendMsg.

(** [apistruct.SendMsgReq]. *)
Module SendMsgReq.
Record t := mk { RecvID : string; SendMsg : SendMsg.t }.
End SendMsgReq.

(** [apistruct.BatchSendMsgReq]. *)
Module BatchSendMsgReq.
Record t := mk { SendMsg : SendMsg.t; IsSendAll : bool; RecvIDs : list string }.
End BatchSendMsgReq.

(** [apistruct.SingleReturnResult] and [apistruct.BatchSendMsgResp]. *)
Module SingleReturnResult.
Record t := mk {
  ServerMsgID : string;
  ClientMsgID : string;
  SendTime : Z;
  RecvID : string;
  Modify : option (gmap string Value)
}.
End SingleReturnResult.

Module BatchSendMsgResp.
Record t := mk { Results : list SingleReturnResult.t; FailedIDs : list string }.
End BatchSendMsgResp.

(** [apistruct.SendSingleMsgReq] and [apistruct.KeyMsgData]. *)
Module SendSingleMsgReq.
Record t := mk {
  SendID : string;
  Content : string;
  OfflinePushInfo : option OfflinePushInfo.t;
  Ex : string
}.
End SendSingleMsgReq.

Module KeyMsgData.
Record t := mk { SendID : string; RecvID : string; GroupID : string }.
End KeyMsgData.

(** The anonymous request struct of [SendBusinessNotification]. *)
Module BusinessNotificationReq.
Record t := mk {
  Key : string;
  Data : string;
  SendUserID : string;
  RecvUserID : string;
  RecvGroupID : string;
  SendMsg : bool;
  ReliabilityLevel : option Z
}.
End BusinessNotificationReq.

Definition setRecvID (m : MsgData.t) (r : string) : MsgData.t :=
  MsgData.mk (MsgData.SendID m) r (MsgData.GroupID m) (MsgData.ClientMsgID m)
    (MsgData.ServerMsgID m) (MsgData.SenderPlatformID m) (MsgData.SenderNickname m)
    (MsgData.SenderFaceURL m) (MsgData.SessionType m) (MsgData.MsgFrom m)
    (MsgData.ContentType m) (MsgData.Content m) (MsgData.Seq m) (MsgData.SendTime m)
    (MsgData.CreateTime m) (MsgData.Status m) (MsgData.IsRead m) (MsgData.Options m)
    (MsgData.OfflinePushInfo m) (MsgData.AtUserIDList m) (MsgData.AttachedInfo m)
    (MsgData.Ex m).

(** ** Errors and the handler monad *)

(** The errors a handler passes to [apiresp.GinError]. *)
Inductive Error :=
  | ErrArgs (detail : string)
  | ErrNoPermission (msg : string)
  | ErrWrap (msg : string) (cause : string)
  | ErrRPC (cause : string).

(** The calls a handler makes outside itself, in order. *)
Inductive Event :=
  | EvBindJSON
  | EvBase64Decode (key : string)
  | EvUnmarshalKey (bs : list byte)
  | EvGetNotificationByID (id : string)
  | EvGetAllUserIDs (pageNumber showNumber : Z)
  | EvSendMsg (md : MsgData.t)
  | EvSendSimpleMsg (md : MsgData.t)
  | EvSetSendMsgStatus (status : Z)
  | EvJsonMarshal (content : string).

Record St := { globals : Globals; trace : list Event }.

(** The end of a computation: a value, a Go error, or no end within the
    steps given to the unbounded [for] loop of [BatchSendMsg]. *)
Inductive Outcome (A : Type) :=
  | Ok (a : A)
  | Err (e : Error)
  | OutOfFuel.
Arguments Ok {A}.
Arguments Err {A}.
Arguments OutOfFuel {A}.

Definition M (A : Type) : Type := St -> St * Outcome A.

Definition ret {A} (a : A) : M A := fun s => (s, Ok a).
Definition bind {A B} (m : M A) (k : A -> M B) : M B :=
  fun s => match m s with
           | (s', Ok a) => k a s'
           | (s', Err e) => (s', Err e)
           | (s', OutOfFuel) => (s', OutOfFuel)
           end.
Definition throw {A} (e : Error) : M A := fun s => (s, Err e).
Definition diverge {A} : M A := fun s => (s, OutOfFuel).

Notation "x <- m ;; k" := (bind m (fun x => k))
  (at level 100, m at next level, right associativity).
Notation "m ;; k" := (bind m (fun _ => k)) (at level 100, right associativity).

Definition emit (e : Event) : M unit :=
  fun s => ({| globals := globals s; trace := trace s ++ [e] |}, Ok tt).

(** A call to a collaborator: recorded, then its Go [error] wrapped by [wrap]. *)
Definition call {A} (ev : Event) (wrap : string -> Error) (r : string + A) : M A :=
  emit ev ;; match r with inl e => throw (wrap e) | inr a => ret a end.

(** A read of the descriptor cache inside a handler. *)
Definition modifyFields (req resp : option MsgData.t) : M (option (gmap string Value)) :=
  fun s => let '(r, g') := getModifyFields (globals s) req resp in
           ({| globals := g'; trace := trace s |}, Ok r).

(** What the handler writes: [apiresp.GinError] or [apiresp.GinSuccess]. *)
Inductive Payload :=
  | PSend (resp : SendMsgResp.t) (modify : option (gmap string Value))
  | PBatch (resp : BatchSendMsgResp.t).

Inductive Response :=
  | GinError (e : Error)
  | GinSuccess (p : Payload)
  | NoResponse.

Definition runHandler (h : M Payload) (s : St) : St * Response :=
  match h s with
  | (s', Ok p) => (s', GinSuccess p)
  | (s', Err e) => (s', GinError e)
  | (s', OutOfFuel) => (s', NoResponse)
  end.

(** ** The environment of a request

    The request context, the libraries the file calls and the RPC clients.
    Go [error]s are the [inl] side, carrying the error's message. *)
Record Env := {
  (* [authverify.IsAdmin(c)], [authverify.CheckAdmin(c) == nil] *)
  IsAdmin : bool;
  (* [mcontext.GetOpUserID(c)] *)
  OpUserID : string;
  (* [timeutil.GetCurrentTimestampByMill()] *)
  Now : Z;
  (* [idutil.GetMsgIDByMD5] *)
  GetMsgIDByMD5 : string -> string;
  (* [jsonutil.StructToJsonString] *)
  StructToJsonString : JVal -> string;
  (* [mapstructure.WeakDecode(content, data)] and [validate.Struct(data)] *)
  WeakDecode : JVal -> Elem -> string + Elem;
  ValidateStruct : Elem -> string + unit;
  (* [config.GetOptionsByNotification] *)
  GetOptionsByNotification : bool -> Z -> gmap string bool;
  (* [base64.StdEncoding.DecodeString], [json.Unmarshal] into [KeyMsgData],
     [jsonutil.JsonMarshal(apistruct.MarkdownTextElem{Content: c})] *)
  Base64Decode : string -> string + list byte;
  UnmarshalKey : list byte -> string + KeyMsgData.t;
  JsonMarshalMarkdown : string -> string + list byte;
  (* the RPC clients [m.userClient] and [m.Client] *)
  GetNotificationByID : string -> string + unit;
  GetAllUserIDs : Z -> Z -> string + list string;
  SendMsg : MsgData.t -> string + SendMsgResp.t;
  SendSimpleMsg : MsgData.t -> string + SendMsgResp.t;
  SetSendMsgStatus : Z -> string + unit
}.

(** [datautil.SetSwitchFromOptions]: [options[key] = value]. *)
Definition SetSwitchFromOptions (options : gmap string bool) (key : string) (value : bool)
  : gmap string bool :=
  <[ key := value ]> options.

(** [MessageApi.SetOptions]. *)
Definition SetOptions (options : gmap string bool) (value : bool) : gmap string bool :=
  let options := SetSwitchFromOptions options constant.IsHistory value in
  let options := SetSwitchFromOptions options constant.IsPersistent value in
  let options := SetSwitchFromOptions options constant.IsSenderSync value in
  SetSwitchFromOptions options constant.IsConversationUpdate value.

(** The option map [newUserSendMsgReq] builds from a fresh [make(map[string]bool, 5)]. *)
Definition sendOptions (options : gmap string bool) (isOnlineOnly notOfflinePush : bool)
  : gmap string bool :=
  let options := if isOnlineOnly then SetOptions options false else options in
  if notOfflinePush then SetSwitchFromOptions options constant.IsOfflinePush false
  else options.

Definition bytesOfString (s : string) : list byte := list_byte_of_string s.

Section Handlers.
Variable env : Env.

(** [MessageApi.newUserSendMsgReq]; the content-type switch falls through
    to the JSON encoding of [params.Content] everywhere but for [OANotification],
    and copies the at-list of an [AtElem] for [Text] and [AtText]. *)
Definition newUserSendMsgReq (params : SendMsg.t) (data : Elem) : MsgData.t :=
  let ct := SendMsg.ContentType params in
  let newContent :=
    if ct =? constant.OANotification then
      StructToJsonString env
        (JObj [("detail", JStr (StructToJsonString env (SendMsg.Content params)))])
    else StructToJsonString env (SendMsg.Content params) in
  let atUserIDList :=
    if (ct =? constant.Text) || (ct =? constant.AtText) then
      match data with AtElem l => l | _ => [] end
    else [] in
  let options := sendOptions ∅ (SendMsg.IsOnlineOnly params) (SendMsg.NotOfflinePush params) in
  {| MsgData.SendID := SendMsg.SendID params;
     MsgData.RecvID := "";
     MsgData.GroupID := SendMsg.GroupID params;
     MsgData.ClientMsgID := GetMsgIDByMD5 env (SendMsg.SendID params);
     MsgData.ServerMsgID := "";
     MsgData.SenderPlatformID := SendMsg.SenderPlatformID params;
     MsgData.SenderNickname := SendMsg.SenderNickname params;
     MsgData.SenderFaceURL := SendMsg.SenderFaceURL params;
     MsgData.SessionType := SendMsg.SessionType params;
     MsgData.MsgFrom := constant.SysMsgType;
     MsgData.ContentType := ct;
     MsgData.Content := bytesOfString newContent;
     MsgData.Seq := 0;
     MsgData.SendTime := SendMsg.SendTime params;
     MsgData.CreateTime := Now env;
     MsgData.Status := 0;
     MsgData.IsRead := false;
     MsgData.Options := options;
     MsgData.OfflinePushInfo := SendMsg.OfflinePushInfo params;
     MsgData.AtUserIDList := atUserIDList;
     MsgData.AttachedInfo := "";
     MsgData.Ex := SendMsg.Ex params |}.

(** The typed container [getSendMsgReq] picks for a content type. *)
Definition contentContainer (ct : Z) : option Elem :=
  if ct =? constant.Text then Some TextElem
  else if ct =? constant.Picture then Some PictureElem
  else if ct =? constant.Voice then Some SoundElem
  else if ct =? constant.Video then Some VideoElem
  else if ct =? constant.File then Some FileElem
  else if ct =? constant.AtText then Some (AtElem [])
  else if ct =? constant.Custom then Some CustomElem
  else if ct =? constant.MarkdownText then Some MarkdownTextElem
  else if ct =? constant.OANotification then Some OANotificationElem
  else None.

(** [MessageApi.getSendMsgReq]; [msg.SendMsgReq] is its [MsgData]. *)
Definition getSendMsgReq (req : SendMsg.t) : M MsgData.t :=
  match contentContainer (SendMsg.ContentType req) with
  | None => throw (ErrWrap "unsupported content type" "ErrArgs")
  | Some data0 =>
      req <- (if SendMsg.ContentType req =? constant.OANotification then
                let req := SendMsg.setSessionType req constant.NotificationChatType in
                call (EvGetNotificationByID (SendMsg.SendID req)) ErrRPC
                     (GetNotificationByID env (SendMsg.SendID req)) ;;
                ret req
              else ret req) ;;
      data <- (match WeakDecode env (SendMsg.Content req) data0 with
               | inl e => throw (ErrWrap "failed to decode message content" e)
               | inr d => ret d
               end) ;;
      (match ValidateStruct env data with
       | inl e => throw (ErrWrap "validation error" e)
       | inr _ => ret tt
       end) ;;
      ret (newUserSendMsgReq req data)
  end.

(** [MessageApi.ginRespSendMsg]. *)
Definition ginRespSendMsg (req : MsgData.t) (resp : SendMsgResp.t) : M Payload :=
  res <- modifyFields (Some req) (SendMsgResp.Modify resp) ;;
  ret (PSend {| SendMsgResp.ServerMsgID := SendMsgResp.ServerMsgID resp;
                SendMsgResp.ClientMsgID := SendMsgResp.ClientMsgID resp;
                SendMsgResp.SendTime := SendMsgResp.SendTime resp;
                SendMsgResp.Modify := None |} res).

(** [c.BindJSON(&req)]: the decoded body, or the binding error. *)
Definition bindJSON {A} (body : string + A) : M A := call EvBindJSON ErrArgs body.

Definition noPermission : Error := ErrNoPermission "only app manager can send message".

(** [MessageApi.SendMessage]. *)
Definition SendMessage (body : string + SendMsgReq.t) : M Payload :=
  req <- bindJSON body ;;
  (if IsAdmin env then ret tt else throw noPermission) ;;
  sendMsgReq <- getSendMsgReq (SendMsgReq.SendMsg req) ;;
  let sendMsgReq := setRecvID sendMsgReq (SendMsgReq.RecvID req) in
  respPb <- call (EvSendMsg sendMsgReq) ErrRPC (SendMsg env sendMsgReq) ;;
  call (EvSetSendMsgStatus constant.MsgSendSuccessed) ErrRPC
       (SetSendMsgStatus env constant.MsgSendSuccessed) ;;
  ginRespSendMsg sendMsgReq respPb.

(** The envelope [SendBusinessNotification] builds, once the request passed
    its checks. *)
Definition businessNotificationMsgData (req : BusinessNotificationReq.t)
    (sessionType reliabilityLevel : Z) : MsgData.t :=
  {| MsgData.SendID := BusinessNotificationReq.SendUserID req;
     MsgData.RecvID := BusinessNotificationReq.RecvUserID req;
     MsgData.GroupID := BusinessNotificationReq.RecvGroupID req;
     MsgData.ClientMsgID := GetMsgIDByMD5 env (OpUserID env);
     MsgData.ServerMsgID := "";
     MsgData.SenderPlatformID := 0;
     MsgData.SenderNickname := "";
     MsgData.SenderFaceURL := "";
     MsgData.SessionType := sessionType;
     MsgData.MsgFrom := constant.SysMsgType;
     MsgData.ContentType := constant.BusinessNotification;
     MsgData.Content := bytesOfString (StructToJsonString env
        (JObj [("detail", JStr (StructToJsonString env
           (JObj [("key", JStr (BusinessNotificationReq.Key req));
                  ("data", JStr (BusinessNotificationReq.Data req))])))]));
     MsgData.Seq := 0;
     MsgData.SendTime := 0;
     MsgData.CreateTime := Now env;
     MsgData.Status := 0;
     MsgData.IsRead := false;
     MsgData.Options := GetOptionsByNotification env
                          (BusinessNotificationReq.SendMsg req) reliabilityLevel;
     MsgData.OfflinePushInfo := None;
     MsgData.AtUserIDList := [];
     MsgData.AttachedInfo := "";
     MsgData.Ex := "" |}.

(** [MessageApi.SendBusinessNotification]. *)
Definition SendBusinessNotification (body : string + BusinessNotificationReq.t) : M Payload :=
  req <- bindJSON body ;;
  let recvUserID := BusinessNotificationReq.RecvUserID req in
  let recvGroupID := BusinessNotificationReq.RecvGroupID req in
  if String.eqb recvUserID "" && String.eqb recvGroupID "" then
    throw (ErrArgs "recvUserID and recvGroupID cannot be empty at the same time")
  else if negb (String.eqb recvUserID "") && negb (String.eqb recvGroupID "") then
    throw (ErrArgs "recvUserID and recvGroupID cannot be set at the same time")
  else
    let sessionType := if negb (String.eqb recvUserID "") then constant.SingleChatType
                       else constant.ReadGroupChatType in
    let reliabilityLevel :=
      match BusinessNotificationReq.ReliabilityLevel req with Some l => l | None => 1 end in
    (if IsAdmin env then ret tt else throw noPermission) ;;
    let sendMsgReq := businessNotificationMsgData req sessionType reliabilityLevel in
    respPb <- call (EvSendMsg sendMsgReq) ErrRPC (SendMsg env sendMsgReq) ;;
    ginRespSendMsg sendMsgReq respPb.

(** [pageNumber++] on an [int32]. *)
Definition int32_wrap (z : Z) : Z := (z + 2^31) mod 2^32 - 2^31.

Definition showNumber : Z := 500.

(** The [for] loop of the "send to all" branch of [BatchSendMsg], run for at
    most [fuel] iterations. *)
Fixpoint pageAllUserIDs (fuel : nat) (pageNumber : Z) (recvIDs : list string)
  : M (list string) :=
  match fuel with
  | O => diverge
  | S fuel =>
      recvIDsPart <- call (EvGetAllUserIDs pageNumber showNumber) ErrRPC
                          (GetAllUserIDs env pageNumber showNumber) ;;
      let recvIDs := recvIDs ++ recvIDsPart in
      if Z.of_nat (length recvIDsPart) <? showNumber then ret recvIDs
      else pageAllUserIDs fuel (int32_wrap (pageNumber + 1)) recvIDs
  end.

Definition addResult (resp : BatchSendMsgResp.t) (r : SingleReturnResult.t) : BatchSendMsgResp.t :=
  BatchSendMsgResp.mk (BatchSendMsgResp.Results resp ++ [r]) (BatchSendMsgResp.FailedIDs resp).

Definition addFailed (resp : BatchSendMsgResp.t) (recvID : string) : BatchSendMsgResp.t :=
  BatchSendMsgResp.mk (BatchSendMsgResp.Results resp) (BatchSendMsgResp.FailedIDs resp ++ [recvID]).

(** The [for _, recvID := range recvIDs] loop of [BatchSendMsg]; the one
    envelope [sendMsgReq.MsgData] is updated in place, so it is threaded
    through the iterations. *)
Fixpoint sendToEach (sendMsgReq : MsgData.t) (recvIDs : list string)
    (resp : BatchSendMsgResp.t) : M BatchSendMsgResp.t :=
  match recvIDs with
  | [] => ret resp
  | recvID :: rest =>
      let sendMsgReq := setRecvID sendMsgReq recvID in
      emit (EvSendMsg sendMsgReq) ;;
      match SendMsg env sendMsgReq with
      | inl _ => sendToEach sendMsgReq rest (addFailed resp recvID)
      | inr rpcResp =>
          modify <- modifyFields (Some sendMsgReq) (SendMsgResp.Modify rpcResp) ;;
          sendToEach sendMsgReq rest
            (addResult resp {| SingleReturnResult.ServerMsgID := SendMsgResp.ServerMsgID rpcResp;
                               SingleReturnResult.ClientMsgID := SendMsgResp.ClientMsgID rpcResp;
                               SingleReturnResult.SendTime := SendMsgResp.SendTime rpcResp;
                               SingleReturnResult.RecvID := recvID;
                               SingleReturnResult.Modify := modify |})
      end
  end.

(** [MessageApi.BatchSendMsg]. *)
Definition BatchSendMsg (fuel : nat) (body : string + BatchSendMsgReq.t) : M Payload :=
  req <- bindJSON body ;;
  (if IsAdmin env then ret tt else throw noPermission) ;;
  recvIDs <- (if BatchSendMsgReq.IsSendAll req then pageAllUserIDs fuel 1 []
              else ret (BatchSendMsgReq.RecvIDs req)) ;;
  sendMsgReq <- getSendMsgReq (BatchSendMsgReq.SendMsg req) ;;
  resp <- sendToEach sendMsgReq recvIDs (BatchSendMsgResp.mk [] []) ;;
  ret (PBatch resp).

(** The envelope [SendSimpleMessage] builds. *)
Definition simpleMsgData (keyMsgData : KeyMsgData.t) (req : SendSingleMsgReq.t)
    (sendID recvID : string) (sessionType : Z) (content : list byte) : MsgData.t :=
  {| MsgData.SendID := sendID;
     MsgData.RecvID := recvID;
     MsgData.GroupID := KeyMsgData.GroupID keyMsgData;
     MsgData.ClientMsgID := GetMsgIDByMD5 env sendID;
     MsgData.ServerMsgID := "";
     MsgData.SenderPlatformID := constant.AdminPlatformID;
     MsgData.SenderNickname := "";
     MsgData.SenderFaceURL := "";
     MsgData.SessionType := sessionType;
     MsgData.MsgFrom := constant.UserMsgType;
     MsgData.ContentType := constant.MarkdownText;
     MsgData.Content := content;
     MsgData.Seq := 0;
     MsgData.SendTime := 0;
     MsgData.CreateTime := 0;
     MsgData.Status := 0;
     MsgData.IsRead := false;
     MsgData.Options := ∅;
     MsgData.OfflinePushInfo := SendSingleMsgReq.OfflinePushInfo req;
     MsgData.AtUserIDList := [];
     MsgData.AttachedInfo := "";
     MsgData.Ex := SendSingleMsgReq.Ex req |}.

(** [MessageApi.SendSimpleMessage]; [key] is [c.GetQuery(webhook.Key)]. *)
Definition SendSimpleMessage (key : option string) (body : string + SendSingleMsgReq.t)
  : M Payload :=
  match key with
  | None => throw (ErrArgs "missing key in query")
  | Some encodedKey =>
      decodedData <- call (EvBase64Decode encodedKey) ErrArgs (Base64Decode env encodedKey) ;;
      req <- bindJSON body ;;
      keyMsgData <- call (EvUnmarshalKey decodedData) ErrArgs (UnmarshalKey env decodedData) ;;
      let '(sessionType, sendID, recvID) :=
        if negb (String.eqb (KeyMsgData.GroupID keyMsgData) "")
        then (constant.ReadGroupChatType, SendSingleMsgReq.SendID req, ""%string)
        else (constant.SingleChatType, KeyMsgData.RecvID keyMsgData, KeyMsgData.SendID keyMsgData) in
      if String.eqb (KeyMsgData.SendID keyMsgData) "" then
        throw (ErrArgs "missing recvID or GroupID")
      else if String.eqb sendID "" then
        throw (ErrArgs "missing sendID")
      else
        content <- call (EvJsonMarshal (SendSingleMsgReq.Content req)) (ErrWrap "")
                        (JsonMarshalMarkdown env (SendSingleMsgReq.Content req)) ;;
        let msgData := simpleMsgData keyMsgData req sendID recvID sessionType content in
        respPb <- call (EvSendSimpleMsg msgData) ErrRPC (SendSimpleMsg env msgData) ;;
        call (EvSetSendMsgStatus constant.MsgSendSuccessed) ErrRPC
             (SetSendMsgStatus env constant.MsgSendSuccessed) ;;
        ginRespSendMsg msgData {| SendMsgResp.ServerMsgID := SendMsgResp.ServerMsgID respPb;
                                  SendMsgResp.ClientMsgID := SendMsgResp.ClientMsgID respPb;
                                  SendMsgResp.SendTime := SendMsgResp.SendTime respPb;
                                  SendMsgResp.Modify := SendMsgResp.Modify respPb |}
  end.

End Handlers.

(** A process lifetime of diffs: the globals after the calls [calls] to
    [getModifyFields], in order. *)
Fixpoint runDiffs (g : Globals) (calls : list (option MsgData.t * option MsgData.t)) : Globals :=
  match calls with
  | [] => g
  | (req, resp) :: rest => runDiffs (snd (getModifyFields g req resp)) rest
  end.

Definition bothPresent (c : option MsgData.t * option MsgData.t) : bool :=
  match c with (Some _, Some _) => true | _ => false end.

(** The events appended to the trace. *)
Definition appendTrace (s : St) (evs : list Event) : St :=
  {| globals := globals s; trace := trace s ++ evs |}.

(** The envelopes a trace hands to [SendMsg] and [SendSimpleMsg]. *)
Definition sentEnvelopes (evs : list Event) : list MsgData.t :=
  flat_map (fun ev => match ev with
                      | EvSendMsg md | EvSendSimpleMsg md => [md]
                      | _ => []
                      end) evs.

Definition initialSt : St := {| globals := initialGlobals; trace := [] |}.

(** [m] only appends to the trace, and only events satisfying [P]. *)
Definition only {A} (P : Event -> Prop) (m : M A) : Prop :=
  forall s, exists new, trace (fst (m s)) = trace s ++ new /\ Forall P new.

(** The condition on events that a condition on sent envelopes gives. *)
Definition onSent (Q : MsgData.t -> Prop) (ev : Event) : Prop :=
  match ev with
  | EvSendMsg md | EvSendSimpleMsg md => Q md
  | _ => True
  end.

(** ** Concrete environments *)

(** A JSON string literal. *)
Definition q (s : string) : string := String "034"%char (s ++ String "034"%char EmptyString).

(** The routing keys of the samples: a direct-chat key and a group key, the
    JSON documents [KeyMsgData] is read from and their standard base64. *)
Definition directKeyJson : string :=
  "{" ++ q "sendID" ++ ":" ++ q "u1" ++ "," ++ q "recvID" ++ ":" ++ q "u2" ++ "}".
Definition groupKeyJson : string :=
  "{" ++ q "sendID" ++ ":" ++ q "u1" ++ "," ++ q "groupID" ++ ":" ++ q "g1" ++ "}".
Definition directKey : string := "eyJzZW5kSUQiOiJ1MSIsInJlY3ZJRCI6InUyIn0=".
Definition groupKey : string := "eyJzZW5kSUQiOiJ1MSIsImdyb3VwSUQiOiJnMSJ9".

(** A sample request environment. The library functions agree with the Go
    libraries on the inputs the samples give them: [base64] on the keys above
    and on ["eA=="] (the encoding of ["x"]), [json.Unmarshal] on the two key
    documents and on ["x"], which is not JSON. [GetMsgIDByMD5] is a
    stand-in digest, the identity, which separates distinct arguments as an
    MD5 digest does; the content serialization is not looked at. *)
Definition sampleEnv (admin : bool) (opUserID : string) (now : Z)
    (sendMsg : MsgData.t -> string + SendMsgResp.t)
    (getAllUserIDs : Z -> Z -> string + list string)
    (setStatus : Z -> string + unit) : Env :=
  {| IsAdmin := admin;
     OpUserID := opUserID;
     Now := now;
     GetMsgIDByMD5 := fun s => s;
     StructToJsonString := fun _ => "{}";
     WeakDecode := fun _ d => inr d;
     ValidateStruct := fun _ => inr tt;
     GetOptionsByNotification := fun _ _ => ∅;
     Base64Decode := fun k =>
       if String.eqb k "eA==" then inr (bytesOfString "x")
       else if String.eqb k directKey then inr (bytesOfString directKeyJson)
       else if String.eqb k groupKey then inr (bytesOfString groupKeyJson)
       else inl "illegal base64 data at input byte 0";
     UnmarshalKey := fun bs =>
       if bool_decide (bs = bytesOfString directKeyJson) then inr (KeyMsgData.mk "u1" "u2" "")
       else if bool_decide (bs = bytesOfString groupKeyJson) then inr (KeyMsgData.mk "u1" "" "g1")
       else inl "invalid character 'x' looking for beginning of value";
     JsonMarshalMarkdown := fun c =>
       inr (bytesOfString ("{" ++ q "content" ++ ":" ++ q c ++ "}"));
     GetNotificationByID := fun _ => inr tt;
     GetAllUserIDs := getAllUserIDs;
     SendMsg := sendMsg;
     SendSimpleMsg := sendMsg;
     SetSendMsgStatus := setStatus |}.

Definition okResp : SendMsgResp.t := SendMsgResp.mk "srv-1" "cli-1" 1700000000001 None.

Definition acceptAll (_ : MsgData.t) : string + SendMsgResp.t := inr okResp.

Definition noDirectory (_ _ : Z) : string + list string := inr [].

(** A directory of 502 users: one full page of 500, then a short page of 2. *)
Definition fullPage : list string := repeat "u" 500.

Definition twoPageDirectory (pageNumber _ : Z) : string + list string :=
  if pageNumber =? 1 then inr fullPage
  else if pageNumber =? 2 then inr ["v"; "w"]
  else inr [].

Definition statusOk (_ : Z) : string + unit := inr tt.

Definition twoPageEnv : Env :=
  sampleEnv true "admin" 1700000000000 acceptAll twoPageDirectory statusOk.

Definition sampleSendMsg : SendMsg.t :=
  {| SendMsg.SendID := "u1";
     SendMsg.GroupID := "";
     SendMsg.SenderNickname := "";
     SendMsg.SenderFaceURL := "";
     SendMsg.SenderPlatformID := 1;
     SendMsg.Content := JObj [("text", JStr "hi")];
     SendMsg.ContentType := constant.Text;
     SendMsg.SessionType := constant.SingleChatType;
     SendMsg.IsOnlineOnly := false;
     SendMsg.NotOfflinePush := false;
     SendMsg.SendTime := 0;
     SendMsg.OfflinePushInfo := None;
     SendMsg.Ex := "" |}.

Definition businessReq : BusinessNotificationReq.t :=
  BusinessNotificationReq.mk "k" "d" "u1" "u2" "" false None.

Definition sampleSendMsgReq : SendMsgReq.t := SendMsgReq.mk "u2" sampleSendMsg.

(** An environment whose status store is down. *)
Definition statusDownEnv : Env :=
  sampleEnv true "admin" 1700000000000 acceptAll noDirectory
    (fun _ => inl "status store unavailable").

(** A backend that refuses the submissions addressed to "u2". *)
Definition refuseU2 (md : MsgData.t) : string + SendMsgResp.t :=
  if String.eqb (MsgData.RecvID md) "u2" then inl "recipient unavailable" else inr okResp.

Definition refuseU2Env : Env :=
  sampleEnv true "admin" 1700000000000 refuseU2 noDirectory statusOk.

(** Whether the backend accepts the template [md] addressed to [x]. *)
Definition accepted (env : Env) (md : MsgData.t) (x : string) : bool :=
  match SendMsg env (setRecvID md x) with inr _ => true | inl _ => false end.

(** The content types the switch of [getSendMsgReq] has a case for. *)
Definition supportedContentTypes : list Z :=
  [constant.Text; constant.Picture; constant.Voice; constant.Video; constant.File;
   constant.AtText; constant.Custom; constant.MarkdownText; constant.OANotification].

(** The request environment [env] with the caller's app-manager role set to [b]. *)
Definition withAdmin (env : Env) (b : bool) : Env :=
  {| IsAdmin := b;
     OpUserID := OpUserID env;
     Now := Now env;
     GetMsgIDByMD5 := GetMsgIDByMD5 env;
     StructToJsonString := StructToJsonString env;
     WeakDecode := WeakDecode env;
     ValidateStruct := ValidateStruct env;
     GetOptionsByNotification := GetOptionsByNotification env;
     Base64Decode := Base64Decode env;
     UnmarshalKey := UnmarshalKey env;
     JsonMarshalMarkdown := JsonMarshalMarkdown env;
     GetNotificationByID := GetNotificationByID env;
     GetAllUserIDs := GetAllUserIDs env;
     SendMsg := SendMsg env;
     SendSimpleMsg := SendSimpleMsg env;
     SetSendMsgStatus := SetSendMsgStatus env |}.

(** A request of a page of the user directory. *)
Definition isPageRequest (ev : Event) : Prop :=
  match ev with EvGetAllUserIDs _ _ => True | _ => False end.

(** A batch to the listed recipients "u1", "u2", "u3". *)
Definition sampleBatchReq : BatchSendMsgReq.t :=
  BatchSendMsgReq.mk sampleSendMsg false ["u1"; "u2"; "u3"].

(** A message whose content type, a business notification, [getSendMsgReq]
    has no case for. *)
Definition unsupportedSendMsg : SendMsg.t :=
  SendMsg.mk "u1" "" "" "" 1 (JObj []) constant.BusinessNotification
    constant.SingleChatType false false 0 None "".

(** An environment whose user directory is down. *)
Definition directoryDownEnv : Env :=
  sampleEnv true "admin" 1700000000000 acceptAll (fun _ _ => inl "directory unavailable")
    statusOk.

(** An event of looking up a notification account. *)
Definition isLookup (ev : Event) : Prop :=
  match ev with EvGetNotificationByID _ => True | _ => False end.

(** * Properties *)

(** ** Traces of the handlers *)

Section Only.
Context (P : Event -> Prop).

Lemma only_ret {A} (a : A) : only P (ret a).
Proof. intros s. exists []. by rewrite app_nil_r. Qed.

Lemma only_throw {A} (e : Error) : only P (@throw A e).
Proof. intros s. exists []. by rewrite app_nil_r. Qed.

Lemma only_diverge {A} : only P (@diverge A).
Proof. intros s. exists []. by rewrite app_nil_r. Qed.

Lemma only_emit (ev : Event) : P ev -> only P (emit ev).
Proof. intros Hev s. exists [ev]. split; [done|]. by constructor. Qed.

Lemma only_bind {A B} (m : M A) (k : A -> M B) :
  only P m -> (forall a, only P (k a)) -> only P (bind m k).
Proof.
  intros Hm Hk s. unfold bind.
  destruct (Hm s) as (new1 & H1 & F1).
  destruct (m s) as [s1 [a|e|]] eqn:E; simpl in *.
  - destruct (Hk a s1) as (new2 & H2 & F2).
    exists (new1 ++ new2). rewrite H2, H1, app_assoc. split; [done|].
    by apply Forall_app.
  - by exists new1.
  - by exists new1.
Qed.

Lemma only_call {A} (ev : Event) (wrap : string -> Error) (r : string + A) :
  P ev -> only P (call ev wrap r).
Proof.
  intros Hev. unfold call. apply only_bind; [by apply only_emit|].
  intros _. destruct r; [apply only_throw|apply only_ret].
Qed.

Lemma only_call_bind {A B} (ev : Event) (wrap : string -> Error) (r : string + A)
    (k : A -> M B) :
  P ev -> (forall a, r = inr a -> only P (k a)) -> only P (bind (call ev wrap r) k).
Proof.
  intros Hev Hk. intros s. unfold call, bind, emit, throw, ret.
  destruct r as [e|a]; simpl.
  - exists [ev]. split; [done|]. by constructor.
  - destruct (Hk a eq_refl {| globals := globals s; trace := trace s ++ [ev] |})
      as (new & H & F).
    exists (ev :: new). simpl in H. rewrite H, <- app_assoc. split; [done|].
    by constructor.
Qed.

Lemma only_modifyFields (req resp : option MsgData.t) : only P (modifyFields req resp).
Proof.
  intros s. exists []. unfold modifyFields.
  destruct (getModifyFields _ _ _). simpl. by rewrite app_nil_r.
Qed.

Lemma only_ginRespSendMsg (req : MsgData.t) (resp : SendMsgResp.t) :
  only P (ginRespSendMsg req resp).
Proof.
  unfold ginRespSendMsg. apply only_bind; [apply only_modifyFields|].
  intros. apply only_ret.
Qed.

End Only.

Ltac only_solve :=
  repeat match goal with
  | |- only _ (bind (call _ _ _) _) => apply only_call_bind; [|intros ? ?]
  | |- only _ (bind _ _) => apply only_bind; [|intros ?]
  | |- only _ (ret _) => apply only_ret
  | |- only _ (throw _) => apply only_throw
  | |- only _ diverge => apply only_diverge
  | |- only _ (modifyFields _ _) => apply only_modifyFields
  | |- only _ (ginRespSendMsg _ _) => apply only_ginRespSendMsg
  | |- only _ (call _ _ _) => apply only_call
  | |- only _ (emit _) => apply only_emit
  | |- only _ (if ?b then _ else _) => destruct b eqn:?
  | |- only _ (match (if ?b then _ else _) with _ => _ end) => destruct b eqn:?
  | |- only _ (match ?x with _ => _ end) => destruct x eqn:?
  end.

Lemma runHandler_trace (h : M Payload) (s : St) :
  trace (fst (runHandler h s)) = trace (fst (h s)).
Proof. unfold runHandler. by destruct (h s) as [s' [| |]]. Qed.

Lemma sentEnvelopes_Forall (Q : MsgData.t -> Prop) (evs : list Event) :
  Forall (onSent Q) evs -> Forall Q (sentEnvelopes evs).
Proof.
  induction evs as [|ev evs IH]; intros H; simpl; [constructor|].
  inversion H; subst. apply Forall_app. split; [|by apply IH].
  destruct ev; simpl; repeat constructor; done.
Qed.

(** A handler run from an empty trace sends only envelopes satisfying [Q]. *)
Lemma only_sentEnvelopes_fresh (Q : MsgData.t -> Prop) (h : M Payload) (g : Globals) :
  only (onSent Q) h ->
  Forall Q (sentEnvelopes (trace (fst (runHandler h {| globals := g; trace := [] |})))).
Proof.
  intros Hh. rewrite runHandler_trace.
  destruct (Hh {| globals := g; trace := [] |}) as (new & Ht & F).
  rewrite Ht. simpl. by apply sentEnvelopes_Forall.
Qed.

(** ** The diff engine *)

Definition globals_ok (g : Globals) : Prop :=
  (onceDone g = false /\ initRuns g = 0%nat) \/
  (onceDone g = true /\ msgDataDescriptor g = computeMsgDataDescriptor /\ initRuns g = 1%nat).

Lemma keepStep_Forall (skip : gset string) (fields acc : list (FieldDescriptor MsgData.t)) :
  Forall (fun f => JSONName f ∉ skip) acc ->
  Forall (fun f => JSONName f ∉ skip) (fold_left (keepStep skip) fields acc).
Proof.
  revert acc. induction fields as [|field fields IH]; intros acc Hacc; simpl; [done|].
  apply IH. unfold keepStep.
  destruct (HasJSONName field); [|done].
  case_bool_decide as Hin; [done|].
  apply Forall_app; split; [done|]. by constructor.
Qed.

Lemma computeMsgDataDescriptor_not_skipped :
  Forall (fun f => JSONName f ∉ skipSet SendMsgRespFields) computeMsgDataDescriptor.
Proof. apply keepStep_Forall. constructor. Qed.

Lemma SendMsgRespFields_skipped :
  Forall (fun f => JSONName f ∈ skipSet SendMsgRespFields) SendMsgRespFields.
Proof. vm_compute. repeat constructor; set_solver. Qed.

Lemma diffStep_fold_other (req resp : MsgData.t) (k : string)
    (descs : list (FieldDescriptor MsgData.t)) (acc : gmap string Value) :
  Forall (fun d => JSONName d <> k) descs ->
  fold_left (diffStep req resp) descs acc !! k = acc !! k.
Proof.
  revert acc. induction descs as [|d descs IH]; intros acc Hall; simpl; [done|].
  inversion Hall as [|? ? Hd Hrest]; subst.
  rewrite IH by done. unfold diffStep.
  destruct (negb _); [|done].
  by rewrite lookup_insert_ne.
Qed.

Lemma diffStep_fold_equal (req resp : MsgData.t)
    (descs : list (FieldDescriptor MsgData.t)) (acc : gmap string Value) :
  Forall (fun d => Get d req = Get d resp) descs ->
  fold_left (diffStep req resp) descs acc = acc.
Proof.
  revert acc. induction descs as [|d descs IH]; intros acc Hall; simpl; [done|].
  inversion Hall as [|? ? Hd Hrest]; subst.
  unfold diffStep at 2. rewrite Hd. unfold Value_Equal.
  rewrite bool_decide_eq_true_2 by done. simpl. by apply IH.
Qed.

Lemma getMsgDataDescriptor_ok (g : Globals) :
  globals_ok g ->
  fst (getMsgDataDescriptor g) = computeMsgDataDescriptor /\
  globals_ok (snd (getMsgDataDescriptor g)) /\
  onceDone (snd (getMsgDataDescriptor g)) = true.
Proof.
  unfold getMsgDataDescriptor, globals_ok.
  intros [[H1 H2] | (H1 & H2 & H3)]; rewrite H1; simpl.
  - split; [done|]. split; [|done]. right. simpl. by rewrite H2.
  - split; [done|]. split; [|done]. right. done.
Qed.

Lemma getModifyFields_ok (g : Globals) (req resp : option MsgData.t) :
  globals_ok g ->
  globals_ok (snd (getModifyFields g req resp)) /\
  onceDone (snd (getModifyFields g req resp)) =
    onceDone g || bothPresent (req, resp).
Proof.
  intros Hg. unfold getModifyFields.
  destruct req as [req|], resp as [resp|]; simpl;
    try (rewrite orb_false_r; auto).
  destruct (getMsgDataDescriptor_ok g Hg) as (_ & Hok & Hdone).
  destruct (getMsgDataDescriptor g) as [descs g'] eqn:E. simpl in *.
  rewrite orb_true_r. auto.
Qed.

Lemma runDiffs_ok (calls : list (option MsgData.t * option MsgData.t)) (g : Globals) :
  globals_ok g ->
  globals_ok (runDiffs g calls) /\
  onceDone (runDiffs g calls) = onceDone g || existsb bothPresent calls.
Proof.
  revert g. induction calls as [|[req resp] calls IH]; intros g Hg; simpl.
  - by rewrite orb_false_r.
  - destruct (getModifyFields_ok g req resp Hg) as [Hok Hdone].
    destruct (IH _ Hok) as [Hok' Hdone']. split; [done|].
    rewrite Hdone', Hdone. simpl. by rewrite orb_assoc.
Qed.

Lemma initialGlobals_ok : globals_ok initialGlobals.
Proof. left. done. Qed.

(** The diff the engine computes in a state reached from the start. *)
Lemma getModifyFields_reached (calls : list (option MsgData.t * option MsgData.t))
    (req resp : MsgData.t) :
  fst (getModifyFields (runDiffs initialGlobals calls) (Some req) (Some resp)) =
  (let fields := diffLoop computeMsgDataDescriptor req resp in
   if bool_decide (fields = ∅) then None else Some fields).
Proof.
  destruct (runDiffs_ok calls initialGlobals initialGlobals_ok) as [Hok _].
  unfold getModifyFields.
  destruct (getMsgDataDescriptor_ok _ Hok) as [Hd _].
  destruct (getMsgDataDescriptor _) as [descs g']. simpl in *. by subst.
Qed.

(** C3: in every state the process reaches, the diff never holds a key that
    is the JSON name of a field of [SendMsgResp], whatever the two messages;
    the compared fields are the [MsgData] fields whose JSON name is not one
    of [SendMsgResp]'s; they are computed by the first diff of two present
    messages and by no other call (the [Once] body runs exactly that many
    times, at most once), and then stored and returned unchanged. *)
Theorem modify_fields_skip_ack_fields
    (calls : list (option MsgData.t * option MsgData.t)) (req resp : option MsgData.t) :
  let g := runDiffs initialGlobals calls in
  Forall (fun f => match fst (getModifyFields g req resp) with
                   | Some d => d !! JSONName f = None
                   | None => True
                   end) SendMsgRespFields /\
  computeMsgDataDescriptor = keptFields (skipSet SendMsgRespFields) MsgDataFields /\
  fst (getMsgDataDescriptor g) = computeMsgDataDescriptor /\
  initRuns g = (if existsb bothPresent calls then 1 else 0)%nat /\
  (if onceDone g
   then msgDataDescriptor g = computeMsgDataDescriptor /\
        getMsgDataDescriptor g = (msgDataDescriptor g, g)
   else True).
Proof.
  cbv zeta.
  destruct (runDiffs_ok calls initialGlobals initialGlobals_ok) as [Hok Hdone].
  simpl in Hdone.
  split; [|split; [done|split; [|split]]].
  - destruct req as [req|], resp as [resp|];
      try (apply Forall_forall; intros; simpl; done).
    rewrite getModifyFields_reached.
    apply Forall_forall. intros f Hf.
    cbv zeta. destruct (bool_decide _); [exact I|]. cbv beta iota.
    unfold diffLoop. rewrite diffStep_fold_other; [apply lookup_empty|].
    apply Forall_forall. intros d Hd Heq.
    pose proof (proj1 (Forall_forall _ _) computeMsgDataDescriptor_not_skipped d Hd) as Hns.
    pose proof (proj1 (Forall_forall _ _) SendMsgRespFields_skipped f Hf) as Hs.
    cbv beta in Hns, Hs. rewrite Heq in Hns. done.
  - apply getMsgDataDescriptor_ok. done.
  - destruct Hok as [[H1 H2] | (H1 & H2 & H3)]; rewrite Hdone in H1;
      rewrite H1 in *; done.
  - destruct Hok as [[H1 H2] | (H1 & H2 & H3)]; rewrite H1; [done|].
    split; [done|]. unfold getMsgDataDescriptor. by rewrite H1.
Qed.

(** C6: diffing an envelope against an acknowledgment that carries the same
    value in every compared field gives the nil map; and the diff is never a
    present but empty map. *)
Theorem modify_fields_reflexive
    (calls : list (option MsgData.t * option MsgData.t)) (sent ack : MsgData.t)
    (Hecho : Forall (fun d => Get d sent = Get d ack) computeMsgDataDescriptor) :
  fst (getModifyFields (runDiffs initialGlobals calls) (Some sent) (Some ack)) = None /\
  (forall (g : Globals) (req resp : option MsgData.t),
     fst (getModifyFields g req resp) <> Some ∅).
Proof.
  split.
  - rewrite getModifyFields_reached. unfold diffLoop.
    rewrite diffStep_fold_equal by done.
    by rewrite bool_decide_eq_true_2.
  - intros g [req|] [resp|]; unfold getModifyFields; try done.
    destruct (getMsgDataDescriptor g) as [descs g']. simpl.
    case_bool_decide as H; [done|]. intros [= E]. done.
Qed.

(** ** Delivery options *)

(** C5: with [onlineOnly] the history, persistent, sender-sync and
    conversation-update switches are [false]; with [notOfflinePush] the
    offline-push switch is [false]; the toggles act independently, whatever
    the starting option map, and [newUserSendMsgReq] applies them to a
    fresh map. *)
Theorem send_options_toggles (options : gmap string bool) (onlineOnly notOfflinePush : bool) :
  let o := sendOptions options onlineOnly notOfflinePush in
  (if onlineOnly
   then o !! constant.IsHistory = Some false /\ o !! constant.IsPersistent = Some false /\
        o !! constant.IsSenderSync = Some false /\
        o !! constant.IsConversationUpdate = Some false
   else True) /\
  (if notOfflinePush then o !! constant.IsOfflinePush = Some false else True) /\
  (forall (env : Env) (params : SendMsg.t) (data : Elem),
     MsgData.Options (newUserSendMsgReq env params data) =
     sendOptions ∅ (SendMsg.IsOnlineOnly params) (SendMsg.NotOfflinePush params)).
Proof.
  cbv zeta. unfold sendOptions, SetOptions, SetSwitchFromOptions.
  split; [|split; [|done]].
  - destruct onlineOnly; [|done].
    unfold constant.IsHistory, constant.IsPersistent, constant.IsSenderSync,
      constant.IsConversationUpdate, constant.IsOfflinePush.
    destruct notOfflinePush; simplify_map_eq; done.
  - destruct notOfflinePush; [|done]. by rewrite lookup_insert_eq.
Qed.

(** ** Client message IDs *)

(** C1 (as the code has it): the client message ID is what
    [idutil.GetMsgIDByMD5] returns for one string: the envelope's sender ID
    in [newUserSendMsgReq] and in quick send, the operator's user ID of the
    request context in [SendBusinessNotification]. *)
Theorem client_msg_id_argument (env : Env) :
  (forall (params : SendMsg.t) (data : Elem),
     let md := newUserSendMsgReq env params data in
     MsgData.ClientMsgID md = GetMsgIDByMD5 env (MsgData.SendID md) /\
     MsgData.SendID md = SendMsg.SendID params) /\
  (forall (km : KeyMsgData.t) (req : SendSingleMsgReq.t) (sendID recvID : string)
          (sessionType : Z) (content : list byte),
     let md := simpleMsgData env km req sendID recvID sessionType content in
     MsgData.ClientMsgID md = GetMsgIDByMD5 env (MsgData.SendID md)) /\
  (forall (req : BusinessNotificationReq.t) (sessionType reliabilityLevel : Z),
     let md := businessNotificationMsgData env req sessionType reliabilityLevel in
     MsgData.ClientMsgID md = GetMsgIDByMD5 env (OpUserID env) /\
     MsgData.SendID md = BusinessNotificationReq.SendUserID req) /\
  (forall (body : string + BusinessNotificationReq.t) (g : Globals),
     Forall (fun md => MsgData.ClientMsgID md = GetMsgIDByMD5 env (OpUserID env))
       (sentEnvelopes (trace (fst (runHandler (SendBusinessNotification env body)
                                                {| globals := g; trace := [] |}))))).
Proof.
  split; [intros; simpl; done|].
  split; [intros; simpl; done|].
  split; [intros; simpl; done|].
  intros body g.
  apply only_sentEnvelopes_fresh.
  unfold SendBusinessNotification, bindJSON. only_solve; simpl; done.
Qed.

(** C1 fails: two business notifications with the same sender ID "u1", sent
    by the operators "admin1" and "admin2", carry different client message
    IDs (here with the identity as the digest [GetMsgIDByMD5]). *)
Lemma business_notification_client_msg_id_ignores_sender :
  let run op := sentEnvelopes (trace (fst (runHandler
        (SendBusinessNotification (sampleEnv true op 1700000000000 acceptAll noDirectory statusOk)
           (inr businessReq)) initialSt))) in
  map MsgData.SendID (run "admin1") = ["u1"] /\
  map MsgData.SendID (run "admin2") = ["u1"] /\
  map MsgData.ClientMsgID (run "admin1") = ["admin1"] /\
  map MsgData.ClientMsgID (run "admin2") = ["admin2"].
Proof. vm_compute. repeat split. Qed.

(** ** Quick send *)

(** C9: in quick send, with an empty group ID in the routing key the
    envelope's sender is the key's [recvID] and its recipient the key's
    [sendID] (a direct chat); with a group ID the sender is the body's
    [sendID] and the recipient is empty. *)
Theorem simple_message_routing (env : Env) (key : string)
    (body : string + SendSingleMsgReq.t) (g : Globals) :
  match Base64Decode env key, body with
  | inr bs, inr req =>
      match UnmarshalKey env bs with
      | inr km =>
          Forall (fun md =>
                    if String.eqb (KeyMsgData.GroupID km) ""
                    then MsgData.SendID md = KeyMsgData.RecvID km /\
                         MsgData.RecvID md = KeyMsgData.SendID km /\
                         MsgData.SessionType md = constant.SingleChatType
                    else MsgData.SendID md = SendSingleMsgReq.SendID req /\
                         MsgData.RecvID md = "" /\
                         MsgData.GroupID md = KeyMsgData.GroupID km /\
                         MsgData.SessionType md = constant.ReadGroupChatType)
            (sentEnvelopes (trace (fst (runHandler (SendSimpleMessage env (Some key) body)
                                                   {| globals := g; trace := [] |}))))
      | inl _ => True
      end
  | _, _ => True
  end.
Proof.
  destruct (Base64Decode env key) as [e|bs] eqn:Hb; [done|].
  destruct body as [e|req]; [done|].
  destruct (UnmarshalKey env bs) as [e|km] eqn:Hu; [done|].
  apply only_sentEnvelopes_fresh.
  unfold SendSimpleMessage, bindJSON. only_solve; simpl; try done;
    repeat match goal with H : inr _ = inr _ |- _ => injection H as H end;
    subst;
    repeat match goal with
           | H1 : ?x = inr _, H2 : ?x = inr _ |- _ => rewrite H1 in H2; injection H2 as H2; subst
           end;
    destruct (String.eqb (KeyMsgData.GroupID _) "") eqn:Hg; simpl in *; try done.
Qed.

(** ** Delivery status *)

Definition notStatus (ev : Event) : Prop :=
  match ev with EvSetSendMsgStatus _ => False | _ => True end.

Lemma getSendMsgReq_spec (env : Env) (req : SendMsg.t) (s : St) :
  globals (fst (getSendMsgReq env req s)) = globals s /\
  snd (getSendMsgReq env req s) <> OutOfFuel /\
  exists new, trace (fst (getSendMsgReq env req s)) = trace s ++ new /\
              Forall notStatus new.
Proof.
  split; [|split].
  - unfold getSendMsgReq, call, bind, emit, throw, ret.
    repeat (simpl; case_match); simplify_eq; simpl; done.
  - unfold getSendMsgReq, call, bind, emit, throw, ret.
    repeat (simpl; case_match); simplify_eq; simpl; done.
  - revert s. change (only notStatus (getSendMsgReq env req)).
    unfold getSendMsgReq. only_solve; simpl; done.
Qed.

Ltac use_getSendMsgReq_spec :=
  match goal with
  | H : getSendMsgReq ?env ?r ?s0 = (?s2, _) |- _ =>
      pose proof (getSendMsgReq_spec env r s0) as Hspec; rewrite H in Hspec;
      simpl in Hspec; destruct Hspec as (Hg & Hnf & new & Ht & Hf); clear H
  end.

Lemma notStatus_not_in (l : list Event) (st : Z) :
  Forall notStatus l -> EvSetSendMsgStatus st ∈ l -> False.
Proof. rewrite Forall_forall. intros Hf Hin. exact (Hf _ Hin). Qed.

Ltac not_status_in :=
  let Hin := fresh "Hin" in
  intros Hin; first
  [ reflexivity
  | exfalso; eapply notStatus_not_in; [|exact Hin];
    repeat match goal with Ht : trace _ = _ |- _ => rewrite Ht; clear Ht end;
    repeat (apply Forall_app; split); repeat constructor; assumption ].

(** C10: when [SetSendMsgStatus] fails, [SendMessage] and [SendSimpleMessage]
    answer with an error, never with a success, and compute no diff (the
    descriptor cache is untouched); once the status call has been made, the
    answer is the status call's error. *)
Theorem status_failure_is_send_failure (env : Env) (e : string)
    (Hstatus : SetSendMsgStatus env constant.MsgSendSuccessed = inl e) :
  (forall (body : string + SendMsgReq.t) (g : Globals),
     let r := runHandler (SendMessage env body) {| globals := g; trace := [] |} in
     (exists err, snd r = GinError err) /\ globals (fst r) = g /\
     (EvSetSendMsgStatus constant.MsgSendSuccessed ∈ trace (fst r) ->
      snd r = GinError (ErrRPC e))) /\
  (forall (key : option string) (body : string + SendSingleMsgReq.t) (g : Globals),
     let r := runHandler (SendSimpleMessage env key body) {| globals := g; trace := [] |} in
     (exists err, snd r = GinError err) /\ globals (fst r) = g /\
     (EvSetSendMsgStatus constant.MsgSendSuccessed ∈ trace (fst r) ->
      snd r = GinError (ErrRPC e))).
Proof.
  split.
  - intros body g. unfold SendMessage, runHandler, bindJSON, ginRespSendMsg, modifyFields,
      call, bind, emit, throw, ret.
    rewrite Hstatus.
    repeat (simpl; case_match); simplify_eq; simpl;
      try use_getSendMsgReq_spec; simpl in *.
    all: try (split; [eexists; reflexivity|split; [done|not_status_in]]).
    all: done.
  - intros key body g. unfold SendSimpleMessage, runHandler, bindJSON, ginRespSendMsg,
      modifyFields, call, bind, emit, throw, ret.
    rewrite Hstatus.
    repeat (simpl; case_match); simplify_eq; simpl.
    all: split; [eexists; reflexivity|split; [done|not_status_in]].
Qed.

Lemma status_failure_is_send_failure_witness :
  SetSendMsgStatus statusDownEnv constant.MsgSendSuccessed = inl "status store unavailable" /\
  snd (runHandler (SendMessage statusDownEnv (inr sampleSendMsgReq)) initialSt) =
    GinError (ErrRPC "status store unavailable").
Proof.
  split; [reflexivity|].
  destruct (status_failure_is_send_failure statusDownEnv "status store unavailable" eq_refl)
    as [H _].
  destruct (H (inr sampleSendMsgReq) initialGlobals) as (_ & _ & H3).
  apply H3. apply list_elem_of_In. vm_compute. tauto.
Defined.

(** C8 (as the code has it): a missing key, or one that is not base64, fails
    before the body is bound; a key whose decoded document is not a
    [KeyMsgData] is detected only after the body has been bound, so a body
    that fails to bind is reported first; a key without a [sendID] fails with
    "missing recvID or GroupID". In all these cases nothing is serialized and
    nothing is submitted: the trace is exactly the decoding steps listed. *)
Theorem simple_message_key_errors (env : Env) (key : option string)
    (body : string + SendSingleMsgReq.t) (g : Globals) :
  let r := runHandler (SendSimpleMessage env key body) {| globals := g; trace := [] |} in
  match key with
  | None => r = ({| globals := g; trace := [] |}, GinError (ErrArgs "missing key in query"))
  | Some k =>
      match Base64Decode env k with
      | inl e => r = ({| globals := g; trace := [EvBase64Decode k] |}, GinError (ErrArgs e))
      | inr bs =>
          match body with
          | inl e => r = ({| globals := g; trace := [EvBase64Decode k; EvBindJSON] |},
                          GinError (ErrArgs e))
          | inr req =>
              match UnmarshalKey env bs with
              | inl e =>
                  r = ({| globals := g; trace := [EvBase64Decode k; EvBindJSON; EvUnmarshalKey bs] |},
                       GinError (ErrArgs e))
              | inr km =>
                  if String.eqb (KeyMsgData.SendID km) "" then
                    r = ({| globals := g; trace := [EvBase64Decode k; EvBindJSON; EvUnmarshalKey bs] |},
                         GinError (ErrArgs "missing recvID or GroupID"))
                  else True
              end
          end
      end
  end.
Proof.
  cbv zeta.
  destruct key as [k|]; [|reflexivity].
  destruct (Base64Decode env k) as [e|bs] eqn:Hb;
    unfold SendSimpleMessage, runHandler, bindJSON, call, bind, emit, throw, ret;
    rewrite Hb; simpl; [reflexivity|].
  destruct body as [e|req]; simpl; [reflexivity|].
  destruct (UnmarshalKey env bs) as [e|km] eqn:Hu; simpl; [reflexivity|].
  destruct (String.eqb (KeyMsgData.SendID km) "") eqn:Hs; [|done].
  destruct (String.eqb (KeyMsgData.GroupID km) ""); simpl; try rewrite Hs; reflexivity.
Qed.

(** C8 fails: the key "eA==" decodes to "x", which is not JSON. With a body
    that does not bind, the answer is the body's error and the key's document
    is never read; with a body that binds, the key's error comes after the
    body has been bound. *)
Lemma simple_message_body_bound_before_key :
  let env := sampleEnv true "admin" 1700000000000 acceptAll noDirectory statusOk in
  runHandler (SendSimpleMessage env (Some "eA==") (inl "unexpected EOF")) initialSt =
    ({| globals := initialGlobals; trace := [EvBase64Decode "eA=="; EvBindJSON] |},
     GinError (ErrArgs "unexpected EOF")) /\
  runHandler (SendSimpleMessage env (Some "eA==")
                (inr (SendSingleMsgReq.mk "u1" "hi" None ""))) initialSt =
    ({| globals := initialGlobals;
        trace := [EvBase64Decode "eA=="; EvBindJSON; EvUnmarshalKey (bytesOfString "x")] |},
     GinError (ErrArgs "invalid character 'x' looking for beginning of value")).
Proof. split; vm_compute; reflexivity. Qed.

(** ** Creation and send times *)

(** C7 (the quick-send envelope): with the clock at 1700000000000, the
    envelopes of [SendMessage] and [SendBusinessNotification] carry that
    creation time, the envelope of [SendSimpleMessage] carries 0. *)
Lemma simple_message_create_time_unset :
  let env := sampleEnv true "admin" 1700000000000 acceptAll noDirectory statusOk in
  let sent h := sentEnvelopes (trace (fst (runHandler h initialSt))) in
  map MsgData.CreateTime
      (sent (SendSimpleMessage env (Some directKey) (inr (SendSingleMsgReq.mk "" "hi" None "")))) = [0] /\
  map MsgData.CreateTime (sent (SendMessage env (inr sampleSendMsgReq))) = [1700000000000] /\
  map MsgData.CreateTime (sent (SendBusinessNotification env (inr businessReq))) = [1700000000000].
Proof. vm_compute. repeat split. Qed.

(** ** Batch send *)

Lemma setRecvID_setRecvID (md : MsgData.t) (a b : string) :
  setRecvID (setRecvID md a) b = setRecvID md b.
Proof. by destruct md. Qed.

Lemma accepted_setRecvID (env : Env) (md : MsgData.t) (a x : string) :
  accepted env (setRecvID md a) x = accepted env md x.
Proof. unfold accepted. by rewrite setRecvID_setRecvID. Qed.

(** The loop of [BatchSendMsg] always completes; it appends the refused
    recipients to [FailedIDs] and a result for each accepted one to
    [Results], in the order of the list. *)
Lemma sendToEach_spec (env : Env) (md : MsgData.t) (recvIDs : list string)
    (resp : BatchSendMsgResp.t) (s : St) :
  exists resp',
    snd (sendToEach env md recvIDs resp s) = Ok resp' /\
    BatchSendMsgResp.FailedIDs resp' =
      BatchSendMsgResp.FailedIDs resp ++ List.filter (fun x => negb (accepted env md x)) recvIDs /\
    map SingleReturnResult.RecvID (BatchSendMsgResp.Results resp') =
      map SingleReturnResult.RecvID (BatchSendMsgResp.Results resp) ++
      List.filter (accepted env md) recvIDs.
Proof.
  revert md resp s. induction recvIDs as [|x rest IH]; intros md resp s.
  - exists resp. simpl. by rewrite !app_nil_r.
  - simpl. unfold bind at 1, emit. simpl.
    unfold accepted at 1 3.
    destruct (SendMsg env (setRecvID md x)) as [e|r] eqn:Hx; simpl.
    + destruct (IH (setRecvID md x) (addFailed resp x)
                  {| globals := globals s; trace := trace s ++ [EvSendMsg (setRecvID md x)] |})
        as (resp' & H1 & H2 & H3).
      exists resp'. rewrite H1. split; [done|].
      rewrite H2, H3. simpl.
      rewrite !(List.filter_ext (fun y => negb (accepted env (setRecvID md x) y))
                                (fun y => negb (accepted env md y)))
        by (intros; by rewrite accepted_setRecvID).
      rewrite !(List.filter_ext (accepted env (setRecvID md x)) (accepted env md))
        by (intros; by rewrite accepted_setRecvID).
      assert (Hacc : accepted env md x = false) by (unfold accepted; by rewrite Hx).
      rewrite Hacc. split; [by rewrite <- app_assoc | done].
    + unfold bind, modifyFields.
      destruct (getModifyFields _ _ _) as [modify g'] eqn:Hm. simpl.
      match goal with
      | |- exists _, snd (sendToEach env _ rest ?r ?s1) = _ /\ _ =>
          destruct (IH (setRecvID md x) r s1) as (resp' & H1 & H2 & H3)
      end.
      exists resp'. rewrite H1. split; [done|].
      rewrite H2, H3. simpl.
      rewrite !(List.filter_ext (fun y => negb (accepted env (setRecvID md x) y))
                                (fun y => negb (accepted env md y)))
        by (intros; by rewrite accepted_setRecvID).
      rewrite !(List.filter_ext (accepted env (setRecvID md x)) (accepted env md))
        by (intros; by rewrite accepted_setRecvID).
      assert (Hacc : accepted env md x = true) by (unfold accepted; by rewrite Hx).
      rewrite Hacc. split; [done | by rewrite map_app, <- app_assoc].
Qed.

Lemma filter_all_true {A} (f : A -> bool) (l : list A) :
  Forall (fun x => f x = true) l -> List.filter f l = l.
Proof.
  induction l as [|x l IH]; intros H; simpl; [done|].
  inversion H; subst. rewrite H2. by rewrite IH.
Qed.

Lemma filter_negb_all_true {A} (f : A -> bool) (l : list A) :
  Forall (fun x => f x = true) l -> List.filter (fun x => negb (f x)) l = [].
Proof.
  induction l as [|x l IH]; intros H; simpl; [done|].
  inversion H; subst. rewrite H2. simpl. by apply IH.
Qed.

Lemma filter_app' {A} (f : A -> bool) (l1 l2 : list A) :
  List.filter f (l1 ++ l2) = List.filter f l1 ++ List.filter f l2.
Proof.
  induction l1 as [|x l1 IH]; simpl; [done|].
  destruct (f x); simpl; by rewrite IH.
Qed.

(** C2: when the submission for exactly one recipient [k] fails and those for
    all others succeed, the batch loop completes with [FailedIDs = [k]] and
    one result for every other recipient, in the order of the list. *)
Theorem batch_send_single_failure (env : Env) (md : MsgData.t)
    (pre post : list string) (k err : string) (s : St)
    (Hk : SendMsg env (setRecvID md k) = inl err)
    (Hothers : Forall (fun x => accepted env md x = true) (pre ++ post)) :
  exists resp,
    snd (sendToEach env md (pre ++ k :: post) (BatchSendMsgResp.mk [] []) s) = Ok resp /\
    BatchSendMsgResp.FailedIDs resp = [k] /\
    map SingleReturnResult.RecvID (BatchSendMsgResp.Results resp) = pre ++ post /\
    length (BatchSendMsgResp.Results resp) = (length (pre ++ k :: post) - 1)%nat.
Proof.
  destruct (sendToEach_spec env md (pre ++ k :: post) (BatchSendMsgResp.mk [] []) s)
    as (resp & H1 & H2 & H3).
  assert (Hka : accepted env md k = false) by (unfold accepted; by rewrite Hk).
  apply Forall_app in Hothers as [Hpre Hpost].
  exists resp. split; [done|].
  rewrite filter_app' in H2, H3. simpl in H2, H3. rewrite Hka in H2, H3. simpl in H2, H3.
  rewrite (filter_negb_all_true _ pre), (filter_negb_all_true _ post) in H2 by done.
  rewrite (filter_all_true _ pre), (filter_all_true _ post) in H3 by done.
  split; [done|]. split; [done|].
  rewrite <- (length_map SingleReturnResult.RecvID), H3, !length_app. simpl. lia.
Qed.

Lemma batch_send_single_failure_witness :
  SendMsg refuseU2Env (setRecvID MsgData.zero "u2") = inl "recipient unavailable" /\
  Forall (fun x => accepted refuseU2Env MsgData.zero x = true) (["u1"] ++ ["u3"]) /\
  exists resp,
    snd (sendToEach refuseU2Env MsgData.zero (["u1"] ++ "u2" :: ["u3"])
           (BatchSendMsgResp.mk [] []) initialSt) = Ok resp /\
    BatchSendMsgResp.FailedIDs resp = ["u2"] /\
    map SingleReturnResult.RecvID (BatchSendMsgResp.Results resp) = ["u1"] ++ ["u3"] /\
    length (BatchSendMsgResp.Results resp) = (length (["u1"] ++ "u2" :: ["u3"]) - 1)%nat.
Proof.
  assert (Hk : SendMsg refuseU2Env (setRecvID MsgData.zero "u2") = inl "recipient unavailable")
    by reflexivity.
  assert (Ho : Forall (fun x => accepted refuseU2Env MsgData.zero x = true) (["u1"] ++ ["u3"]))
    by (repeat constructor).
  split; [exact Hk|]. split; [exact Ho|].
  exact (batch_send_single_failure refuseU2Env MsgData.zero ["u1"] ["u3"] "u2"
           "recipient unavailable" initialSt Hk Ho).
Defined.

Lemma int32_wrap_small (z : Z) : -2^31 <= z <= 2^31 - 1 -> int32_wrap z = z.
Proof. intros H. unfold int32_wrap. rewrite Z.mod_small; lia. Qed.

Lemma map_seq_shift {A} (f : nat -> A) (start k : nat) :
  map f (seq (S start) k) = map (fun i => f (S i)) (seq start k).
Proof. by rewrite <- seq_shift, map_map. Qed.

(** The paging loop, started at any in-range page number [n] with any
    accumulator, when the pages from [n] on are [full ++ [last]]. *)
Lemma pageAllUserIDs_pages (env : Env) (full : list (list string)) (last : list string) :
  forall (fuel : nat) (n : Z) (acc : list string) (s : St),
  (forall i, (i <= length full)%nat ->
     GetAllUserIDs env (n + Z.of_nat i) showNumber = inr (nth i (full ++ [last]) [])) ->
  Forall (fun p => Z.of_nat (length p) = showNumber) full ->
  Z.of_nat (length last) < showNumber ->
  -2^31 <= n -> n + Z.of_nat (length full) <= 2^31 - 1 ->
  (length full < fuel)%nat ->
  pageAllUserIDs env fuel n acc s =
    ({| globals := globals s;
        trace := trace s ++ map (fun i => EvGetAllUserIDs (n + Z.of_nat i) showNumber)
                                (seq 0 (S (length full))) |},
     Ok (acc ++ concat (full ++ [last]))).
Proof.
  induction full as [|p full IH];
    intros fuel n acc s Hget Hfull Hlast Hlo Hhi Hfuel;
    (destruct fuel as [|fuel]; [simpl in Hfuel; lia|]).
  - specialize (Hget 0%nat ltac:(simpl; lia)). rewrite Z.add_0_r in Hget.
    simpl. unfold bind, call, emit, ret. rewrite Hget. simpl.
    apply Z.ltb_lt in Hlast. rewrite Hlast. rewrite Z.add_0_r, app_nil_r. done.
  - pose proof (Hget 0%nat ltac:(simpl; lia)) as H0. rewrite Z.add_0_r in H0. simpl in H0.
    inversion Hfull as [|? ? Hp Hfull']; subst.
    simpl in Hhi, Hfuel.
    simpl. unfold bind at 1, call, emit, ret at 1. unfold bind at 1. rewrite H0.
    cbn [fst snd]. rewrite Hp, Z.ltb_irrefl.
    rewrite int32_wrap_small by lia.
    rewrite (IH fuel (n + 1) (acc ++ p)); [| | done | done | lia | lia | lia].
    + simpl. f_equal; [|by rewrite <- app_assoc].
      f_equal. rewrite <- app_assoc. f_equal. simpl.
      f_equal; [f_equal; lia|]. f_equal; [f_equal; lia|].
      rewrite (map_seq_shift _ 1). apply map_ext. intros i. f_equal. lia.
    + intros i Hi. replace (n + 1 + Z.of_nat i) with (n + Z.of_nat (S i)) by lia.
      apply (Hget (S i)). simpl. lia.
Qed.

(** C4: "send to all" requests the pages 1, 2, ... with the fixed page size
    [showNumber], stops right after the first page shorter than [showNumber],
    and resolves the recipients to the concatenation of the pages in order, of
    size the sum of the page sizes. The loop terminates (returns [Ok]) once the
    directory yields a short page, provided the page numbers stay in the
    [int32] range. *)
Theorem send_all_paging (env : Env) (full : list (list string)) (last : list string)
    (fuel : nat) (s : St)
    (Hdir : forall i, (i <= length full)%nat ->
       GetAllUserIDs env (Z.of_nat (S i)) showNumber = inr (nth i (full ++ [last]) []))
    (Hfull : Forall (fun p => Z.of_nat (length p) = showNumber) full)
    (Hlast : Z.of_nat (length last) < showNumber)
    (Hbound : Z.of_nat (S (length full)) <= 2^31 - 1)
    (Hfuel : (length full < fuel)%nat) :
  pageAllUserIDs env fuel 1 [] s =
    ({| globals := globals s;
        trace := trace s ++ map (fun i => EvGetAllUserIDs (Z.of_nat i) showNumber)
                                (seq 1 (S (length full))) |},
     Ok (concat (full ++ [last]))) /\
  length (concat (full ++ [last])) = list_sum (map length (full ++ [last])).
Proof.
  split; [|by rewrite length_concat].
  rewrite (pageAllUserIDs_pages env full last fuel 1 [] s); [| | done | done | lia | lia | done].
  - rewrite map_seq_shift. do 3 f_equal. apply map_ext. intros i. f_equal. lia.
  - intros i Hi. replace (1 + Z.of_nat i) with (Z.of_nat (S i)) by lia. by apply Hdir.
Qed.

Lemma send_all_paging_witness :
  (forall i, (i <= length [fullPage])%nat ->
     GetAllUserIDs twoPageEnv (Z.of_nat (S i)) showNumber
     = inr (nth i ([fullPage] ++ [["v"; "w"]]) [])) /\
  Forall (fun p => Z.of_nat (length p) = showNumber) [fullPage] /\
  Z.of_nat (length ["v"; "w"]) < showNumber /\
  Z.of_nat (S (length [fullPage])) <= 2^31 - 1 /\
  (length [fullPage] < 3)%nat /\
  (pageAllUserIDs twoPageEnv 3 1 [] initialSt =
    ({| globals := globals initialSt;
        trace := trace initialSt ++ map (fun i => EvGetAllUserIDs (Z.of_nat i) showNumber)
                                        (seq 1 (S (length [fullPage]))) |},
     Ok (concat ([fullPage] ++ [["v"; "w"]]))) /\
  length (concat ([fullPage] ++ [["v"; "w"]])) =
    list_sum (map length ([fullPage] ++ [["v"; "w"]]))).
Proof.
  assert (Hdir : forall i, (i <= length [fullPage])%nat ->
     GetAllUserIDs twoPageEnv (Z.of_nat (S i)) showNumber
     = inr (nth i ([fullPage] ++ [["v"; "w"]]) [])).
  { intros i Hi. destruct i as [|[|i]]; [reflexivity | reflexivity | simpl in Hi; lia]. }
  assert (Hfull : Forall (fun p => Z.of_nat (length p) = showNumber) [fullPage])
    by (constructor; [reflexivity | constructor]).
  assert (Hlast : Z.of_nat (length ["v"; "w"]) < showNumber) by (vm_compute; reflexivity).
  assert (Hbound : Z.of_nat (S (length [fullPage])) <= 2^31 - 1) by (simpl; lia).
  assert (Hfuel : (length [fullPage] < 3)%nat) by (simpl; lia).
  do 5 (split; [assumption|]).
  exact (send_all_paging twoPageEnv [fullPage] ["v"; "w"] 3 initialSt
           Hdir Hfull Hlast Hbound Hfuel).
Defined.

Lemma modify_fields_reflexive_witness :
  let sent := setRecvID MsgData.zero "u2" in
  let calls := [(Some MsgData.zero, Some MsgData.zero); (None, Some sent)] in
  Forall (fun d => Get d sent = Get d sent) computeMsgDataDescriptor /\
  fst (getModifyFields (runDiffs initialGlobals calls) (Some sent) (Some sent)) = None /\
  (forall (g : Globals) (req resp : option MsgData.t),
     fst (getModifyFields g req resp) <> Some ∅).
Proof.
  cbv zeta.
  assert (Hecho : Forall (fun d => Get d (setRecvID MsgData.zero "u2") = Get d (setRecvID MsgData.zero "u2"))
                    computeMsgDataDescriptor)
    by (apply Forall_forall; intros d _; reflexivity).
  split; [exact Hecho|].
  exact (modify_fields_reflexive [(Some MsgData.zero, Some MsgData.zero);
                                  (None, Some (setRecvID MsgData.zero "u2"))]
           (setRecvID MsgData.zero "u2") (setRecvID MsgData.zero "u2") Hecho).
Defined.

(** * Further properties of the handlers *)

(** ** Business notifications *)

(** A business notification with neither a recipient user nor a recipient group, or with both, is refused with the matching argument error right after the body is bound, before the app-manager check and before anything is sent. *)
Theorem business_notification_recipient_checks (env : Env)
    (req : BusinessNotificationReq.t) (s : St) :
  let r := runHandler (SendBusinessNotification env (inr req)) s in
  let u := BusinessNotificationReq.RecvUserID req in
  let g := BusinessNotificationReq.RecvGroupID req in
  (if String.eqb u "" && String.eqb g "" then
     r = (appendTrace s [EvBindJSON],
          GinError (ErrArgs "recvUserID and recvGroupID cannot be empty at the same time"))
   else True) /\
  (if negb (String.eqb u "") && negb (String.eqb g "") then
     r = (appendTrace s [EvBindJSON],
          GinError (ErrArgs "recvUserID and recvGroupID cannot be set at the same time"))
   else True).
Proof.
  cbv zeta. unfold runHandler, SendBusinessNotification, bindJSON, call, bind, emit, throw, ret.
  simpl. destruct (String.eqb _ ""), (String.eqb _ ""); simpl; split; done.
Qed.

(** A caller who is not an app manager is refused with [noPermission] right after the body is bound, by [SendMessage], by [BatchSendMsg] before any paging, and by [SendBusinessNotification] once the recipients passed their check. *)
Theorem non_admin_refused (env : Env) (s : St) (Hadmin : IsAdmin env = false) :
  (forall req : SendMsgReq.t,
     runHandler (SendMessage env (inr req)) s =
       (appendTrace s [EvBindJSON], GinError noPermission)) /\
  (forall (fuel : nat) (req : BatchSendMsgReq.t),
     runHandler (BatchSendMsg env fuel (inr req)) s =
       (appendTrace s [EvBindJSON], GinError noPermission)) /\
  (forall req : BusinessNotificationReq.t,
     xorb (String.eqb (BusinessNotificationReq.RecvUserID req) "")
          (String.eqb (BusinessNotificationReq.RecvGroupID req) "") = true ->
     runHandler (SendBusinessNotification env (inr req)) s =
       (appendTrace s [EvBindJSON], GinError noPermission)).
Proof.
  split; [|split].
  - intros req. unfold runHandler, SendMessage, bindJSON, call, bind, emit, throw, ret.
    simpl. by rewrite Hadmin.
  - intros fuel req. unfold runHandler, BatchSendMsg, bindJSON, call, bind, emit, throw, ret.
    simpl. by rewrite Hadmin.
  - intros req Hx. unfold runHandler, SendBusinessNotification, bindJSON, call, bind, emit,
      throw, ret.
    simpl. destruct (String.eqb _ ""), (String.eqb _ ""); simpl in Hx; try done;
      simpl; by rewrite Hadmin.
Qed.

Lemma non_admin_refused_witness :
  IsAdmin (sampleEnv false "u9" 0 acceptAll noDirectory statusOk) = false /\
  runHandler (SendMessage (sampleEnv false "u9" 0 acceptAll noDirectory statusOk)
                (inr sampleSendMsgReq)) initialSt =
    (appendTrace initialSt [EvBindJSON], GinError noPermission).
Proof.
  split; [reflexivity|].
  exact (proj1 (non_admin_refused (sampleEnv false "u9" 0 acceptAll noDirectory statusOk)
                  initialSt eq_refl) sampleSendMsgReq).
Defined.

(** Quick send does not look at the caller's app-manager role: its run is the same whatever the role. *)
Theorem simple_message_ignores_admin (env : Env) (b : bool) (key : option string)
    (body : string + SendSingleMsgReq.t) :
  SendSimpleMessage (withAdmin env b) key body = SendSimpleMessage env key body.
Proof. destruct env. reflexivity. Qed.

Lemma contentContainer_supported (ct : Z) :
  contentContainer ct <> None <-> In ct supportedContentTypes.
Proof.
  unfold contentContainer, supportedContentTypes, constant.Text, constant.Picture,
    constant.Voice, constant.Video, constant.File, constant.AtText, constant.Custom,
    constant.MarkdownText, constant.OANotification. simpl.
  repeat case_match; rewrite ?Z.eqb_eq, ?Z.eqb_neq in *; split; intros; try done; lia.
Qed.

(** [getSendMsgReq] has a container exactly for the nine supported content types; any other content type fails with the wrapped argument error before any call, and [SendMessage] answers it after binding the body. *)
Theorem get_send_msg_req_unsupported (env : Env) (req : SendMsg.t) (s : St) :
  (contentContainer (SendMsg.ContentType req) <> None <->
   In (SendMsg.ContentType req) supportedContentTypes) /\
  (~ In (SendMsg.ContentType req) supportedContentTypes ->
   getSendMsgReq env req s = (s, Err (ErrWrap "unsupported content type" "ErrArgs")) /\
   (IsAdmin env = true -> forall recvID : string,
      runHandler (SendMessage env (inr (SendMsgReq.mk recvID req))) s =
        (appendTrace s [EvBindJSON], GinError (ErrWrap "unsupported content type" "ErrArgs")))).
Proof.
  split; [apply contentContainer_supported|].
  intros Hn.
  assert (Hc : contentContainer (SendMsg.ContentType req) = None).
  { destruct (contentContainer _) eqn:E; [|done].
    exfalso. apply Hn, contentContainer_supported. by rewrite E. }
  assert (Hg : forall s', getSendMsgReq env req s' =
                          (s', Err (ErrWrap "unsupported content type" "ErrArgs"))).
  { intros s'. unfold getSendMsgReq. by rewrite Hc. }
  split; [apply Hg|].
  intros Hadmin recvID.
  unfold runHandler, SendMessage, bindJSON, call, bind, emit, throw, ret. simpl.
  rewrite Hadmin. simpl. rewrite Hg. reflexivity.
Qed.

Lemma ginRespSendMsg_trace (md : MsgData.t) (r : SendMsgResp.t) (s : St) :
  trace (fst (ginRespSendMsg md r s)) = trace s.
Proof.
  unfold ginRespSendMsg, modifyFields, bind, ret.
  destruct (getModifyFields _ _ _). reflexivity.
Qed.

(** An app manager's business notification with exactly one recipient sends one envelope, right after the body is bound: from the given sender to the given user or group, as a single chat for a user and a group chat for a group, with the business-notification content type and the options configured for its reliability level (1 when absent). *)
Theorem business_notification_envelope (env : Env) (req : BusinessNotificationReq.t)
    (s : St) (Hadmin : IsAdmin env = true)
    (Hone : xorb (String.eqb (BusinessNotificationReq.RecvUserID req) "")
                 (String.eqb (BusinessNotificationReq.RecvGroupID req) "") = true) :
  exists md,
    trace (fst (runHandler (SendBusinessNotification env (inr req)) s)) =
      trace s ++ [EvBindJSON; EvSendMsg md] /\
    MsgData.SendID md = BusinessNotificationReq.SendUserID req /\
    MsgData.RecvID md = BusinessNotificationReq.RecvUserID req /\
    MsgData.GroupID md = BusinessNotificationReq.RecvGroupID req /\
    MsgData.SessionType md =
      (if String.eqb (BusinessNotificationReq.RecvUserID req) ""
       then constant.ReadGroupChatType else constant.SingleChatType) /\
    MsgData.ContentType md = constant.BusinessNotification /\
    MsgData.Options md =
      GetOptionsByNotification env (BusinessNotificationReq.SendMsg req)
        (match BusinessNotificationReq.ReliabilityLevel req with
         | Some l => l | None => 1 end).
Proof.
  rewrite runHandler_trace.
  exists (businessNotificationMsgData env req
            (if String.eqb (BusinessNotificationReq.RecvUserID req) ""
             then constant.ReadGroupChatType else constant.SingleChatType)
            (match BusinessNotificationReq.ReliabilityLevel req with
             | Some l => l | None => 1 end)).
  split; [|repeat split; reflexivity].
  unfold SendBusinessNotification, bindJSON, call, bind, emit, throw, ret.
  simpl. rewrite Hadmin.
  destruct (String.eqb (BusinessNotificationReq.RecvUserID req) "") eqn:Hu,
           (String.eqb (BusinessNotificationReq.RecvGroupID req) "") eqn:Hg;
    simpl in Hone; try done; simpl;
    (destruct (SendMsg env _); simpl;
     [by rewrite <- app_assoc | by rewrite ginRespSendMsg_trace, <- app_assoc]).
Qed.

Lemma business_notification_envelope_witness :
  let env := sampleEnv true "admin" 1700000000000 acceptAll noDirectory statusOk in
  IsAdmin env = true /\
  xorb (String.eqb (BusinessNotificationReq.RecvUserID businessReq) "")
       (String.eqb (BusinessNotificationReq.RecvGroupID businessReq) "") = true /\
  exists md,
    trace (fst (runHandler (SendBusinessNotification env (inr businessReq)) initialSt)) =
      trace initialSt ++ [EvBindJSON; EvSendMsg md] /\
    MsgData.SendID md = BusinessNotificationReq.SendUserID businessReq /\
    MsgData.RecvID md = BusinessNotificationReq.RecvUserID businessReq /\
    MsgData.GroupID md = BusinessNotificationReq.RecvGroupID businessReq /\
    MsgData.SessionType md =
      (if String.eqb (BusinessNotificationReq.RecvUserID businessReq) ""
       then constant.ReadGroupChatType else constant.SingleChatType) /\
    MsgData.ContentType md = constant.BusinessNotification /\
    MsgData.Options md =
      GetOptionsByNotification env (BusinessNotificationReq.SendMsg businessReq)
        (match BusinessNotificationReq.ReliabilityLevel businessReq with
         | Some l => l | None => 1 end).
Proof.
  cbv zeta. split; [reflexivity|]. split; [reflexivity|].
  exact (business_notification_envelope
           (sampleEnv true "admin" 1700000000000 acceptAll noDirectory statusOk)
           businessReq initialSt eq_refl eq_refl).
Defined.

(** For a supported content type, [getSendMsgReq] makes only the notification lookup, and only for an OA notification; the envelope it builds has the request's content type, sender and send time, no recipient, the system message origin, the current time as creation time, and the notification session type for an OA notification. *)
Theorem get_send_msg_req_envelope (env : Env) (req : SendMsg.t) (s : St)
    (Hsupported : In (SendMsg.ContentType req) supportedContentTypes) :
  let ct := SendMsg.ContentType req in
  let lookup := if ct =? constant.OANotification
                then [EvGetNotificationByID (SendMsg.SendID req)] else [] in
  fst (getSendMsgReq env req s) = appendTrace s lookup /\
  forall md, snd (getSendMsgReq env req s) = Ok md ->
    MsgData.ContentType md = ct /\
    MsgData.SendID md = SendMsg.SendID req /\
    MsgData.RecvID md = "" /\
    MsgData.SessionType md =
      (if ct =? constant.OANotification then constant.NotificationChatType
       else SendMsg.SessionType req) /\
    MsgData.MsgFrom md = constant.SysMsgType /\
    MsgData.CreateTime md = Now env /\
    MsgData.SendTime md = SendMsg.SendTime req.
Proof.
  cbv zeta.
  destruct (contentContainer (SendMsg.ContentType req)) as [data0|] eqn:Hc;
    [|exfalso; apply (proj2 (contentContainer_supported _) Hsupported Hc)].
  unfold getSendMsgReq, call, bind, emit, throw, ret, appendTrace. rewrite Hc.
  destruct (Z.eqb (SendMsg.ContentType req) constant.OANotification) eqn:Hoa; simpl.
  - destruct (GetNotificationByID env _); simpl.
    + split; [done|]. intros md H. discriminate.
    + destruct (WeakDecode env _ _); simpl.
      * split; [done|]. intros md H. discriminate.
      * destruct (ValidateStruct env _); simpl; (split; [done|]); intros md H;
          [discriminate|]. injection H as <-. simpl. repeat split.
  - rewrite app_nil_r. destruct s as [g t]. simpl.
    destruct (WeakDecode env _ _); simpl.
    + split; [done|]. intros md H. discriminate.
    + destruct (ValidateStruct env _); simpl; (split; [done|]); intros md H;
        [discriminate|]. injection H as <-. simpl. repeat split.
Qed.

Lemma get_send_msg_req_envelope_witness :
  let env := sampleEnv true "admin" 1700000000000 acceptAll noDirectory statusOk in
  let req := SendMsg.mk "u1" "" "" "" 1 (JObj []) constant.OANotification
               constant.SingleChatType false false 0 None "" in
  In (SendMsg.ContentType req) supportedContentTypes /\
  fst (getSendMsgReq env req initialSt) =
    appendTrace initialSt [EvGetNotificationByID "u1"] /\
  map MsgData.SessionType
    (match snd (getSendMsgReq env req initialSt) with Ok md => [md] | _ => [] end) =
    [constant.NotificationChatType].
Proof.
  cbv zeta.
  assert (Hs : In constant.OANotification supportedContentTypes) by (simpl; tauto).
  split; [exact Hs|].
  destruct (get_send_msg_req_envelope
              (sampleEnv true "admin" 1700000000000 acceptAll noDirectory statusOk)
              (SendMsg.mk "u1" "" "" "" 1 (JObj []) constant.OANotification
                 constant.SingleChatType false false 0 None "") initialSt Hs) as [H1 H2].
  split; [exact H1|]. vm_compute. reflexivity.
Defined.

(** The options of a user message only ever switch off one of the five delivery switches, and are empty unless one of the two toggles is set. *)
Theorem user_options_only_false (env : Env) (params : SendMsg.t) (data : Elem) :
  let o := MsgData.Options (newUserSendMsgReq env params data) in
  (forall k v, o !! k = Some v ->
     v = false /\
     In k [constant.IsHistory; constant.IsPersistent; constant.IsSenderSync;
           constant.IsConversationUpdate; constant.IsOfflinePush]) /\
  (if SendMsg.IsOnlineOnly params || SendMsg.NotOfflinePush params then True else o = ∅).
Proof.
  cbv zeta. simpl. unfold sendOptions, SetOptions, SetSwitchFromOptions.
  split.
  - intros k v.
    destruct (SendMsg.IsOnlineOnly params), (SendMsg.NotOfflinePush params);
      rewrite ?lookup_insert_Some, ?lookup_empty; intros H;
      repeat (destruct H as [[<- <-]|[_ H]]; [simpl; tauto|]); done.
  - by destruct (SendMsg.IsOnlineOnly params), (SendMsg.NotOfflinePush params).
Qed.

(** ** Batch send and single send: how the steps compose *)

Lemma sendToEach_trace (env : Env) (md : MsgData.t) (recvIDs : list string)
    (resp : BatchSendMsgResp.t) (s : St) :
  trace (fst (sendToEach env md recvIDs resp s)) =
    trace s ++ map (fun x => EvSendMsg (setRecvID md x)) recvIDs.
Proof.
  revert md resp s. induction recvIDs as [|x rest IH]; intros md resp s; simpl.
  - by rewrite app_nil_r.
  - unfold bind at 1, emit. simpl.
    assert (Hmap : map (fun y => EvSendMsg (setRecvID (setRecvID md x) y)) rest =
                   map (fun y => EvSendMsg (setRecvID md y)) rest).
    { apply map_ext. intros y. by rewrite setRecvID_setRecvID. }
    destruct (SendMsg env (setRecvID md x)); simpl.
    + rewrite IH, Hmap. simpl. by rewrite <- app_assoc.
    + unfold bind, modifyFields. destruct (getModifyFields _ _ _). simpl.
      rewrite IH, Hmap. simpl. by rewrite <- app_assoc.
Qed.

Lemma BatchSendMsg_steps (env : Env) (fuel : nat) (req : BatchSendMsgReq.t) (s : St)
    (Hadmin : IsAdmin env = true) :
  BatchSendMsg env fuel (inr req) s =
    (recvIDs <- (if BatchSendMsgReq.IsSendAll req then pageAllUserIDs env fuel 1 []
                 else ret (BatchSendMsgReq.RecvIDs req)) ;;
     sendMsgReq <- getSendMsgReq env (BatchSendMsgReq.SendMsg req) ;;
     resp <- sendToEach env sendMsgReq recvIDs (BatchSendMsgResp.mk [] []) ;;
     ret (PBatch resp)) (appendTrace s [EvBindJSON]).
Proof.
  unfold BatchSendMsg, bindJSON, call, emit, appendTrace.
  unfold bind at 1 2 3 4 5. simpl. rewrite Hadmin. reflexivity.
Qed.

Lemma only_pageAllUserIDs (env : Env) (fuel : nat) (pageNumber : Z) (acc : list string) :
  only isPageRequest (pageAllUserIDs env fuel pageNumber acc).
Proof.
  revert pageNumber acc. induction fuel as [|fuel IH]; intros pageNumber acc; simpl.
  - apply only_diverge.
  - apply only_call_bind; [exact I|]. intros ids _.
    destruct (_ <? _); [apply only_ret | apply IH].
Qed.

(** A listed batch send by an app manager, whose message is accepted, submits one envelope per listed recipient in order, and answers with the accepted recipients as results and the refused ones as failed IDs, which together account for every recipient. *)
Theorem batch_send_partition (env : Env) (fuel : nat) (req : BatchSendMsgReq.t) (s : St)
    (md : MsgData.t) (Hadmin : IsAdmin env = true)
    (Hlist : BatchSendMsgReq.IsSendAll req = false)
    (Hmsg : snd (getSendMsgReq env (BatchSendMsgReq.SendMsg req)
                   (appendTrace s [EvBindJSON])) = Ok md) :
  let s2 := fst (getSendMsgReq env (BatchSendMsgReq.SendMsg req) (appendTrace s [EvBindJSON])) in
  let ids := BatchSendMsgReq.RecvIDs req in
  let r := runHandler (BatchSendMsg env fuel (inr req)) s in
  exists resp,
    snd r = GinSuccess (PBatch resp) /\
    trace (fst r) = trace s2 ++ map (fun x => EvSendMsg (setRecvID md x)) ids /\
    BatchSendMsgResp.FailedIDs resp = List.filter (fun x => negb (accepted env md x)) ids /\
    map SingleReturnResult.RecvID (BatchSendMsgResp.Results resp) =
      List.filter (accepted env md) ids /\
    (length (BatchSendMsgResp.Results resp) + length (BatchSendMsgResp.FailedIDs resp)
     = length ids)%nat.
Proof.
  cbv zeta. unfold runHandler. rewrite BatchSendMsg_steps by done. rewrite Hlist.
  destruct (getSendMsgReq env (BatchSendMsgReq.SendMsg req) (appendTrace s [EvBindJSON]))
    as [s2 o] eqn:Hg.
  simpl in Hmsg. subst o.
  destruct (sendToEach_spec env md (BatchSendMsgReq.RecvIDs req) (BatchSendMsgResp.mk [] []) s2)
    as (resp & H1 & H2 & H3).
  pose proof (sendToEach_trace env md (BatchSendMsgReq.RecvIDs req)
                (BatchSendMsgResp.mk [] []) s2) as Ht.
  destruct (sendToEach env md (BatchSendMsgReq.RecvIDs req) (BatchSendMsgResp.mk [] []) s2)
    as [s3 o] eqn:Hs.
  simpl in H1, Ht. subst o.
  unfold bind, ret. cbn -[getSendMsgReq sendToEach]. rewrite Hg.
  cbn -[sendToEach]. rewrite Hs. cbn.
  exists resp. simpl in H2, H3.
  split; [done|]. split; [done|]. split; [done|]. split; [done|].
  rewrite <- (length_map SingleReturnResult.RecvID (BatchSendMsgResp.Results resp)), H3, H2.
  clear. induction (BatchSendMsgReq.RecvIDs req) as [|x l IH]; simpl; [done|].
  destruct (accepted env md x); simpl; lia.
Qed.

Lemma batch_send_partition_witness :
  let s1 := appendTrace initialSt [EvBindJSON] in
  IsAdmin refuseU2Env = true /\
  BatchSendMsgReq.IsSendAll sampleBatchReq = false /\
  snd (getSendMsgReq refuseU2Env sampleSendMsg s1) =
    Ok (newUserSendMsgReq refuseU2Env sampleSendMsg TextElem) /\
  exists resp,
    snd (runHandler (BatchSendMsg refuseU2Env 0 (inr sampleBatchReq)) initialSt) =
      GinSuccess (PBatch resp) /\
    BatchSendMsgResp.FailedIDs resp = ["u2"] /\
    map SingleReturnResult.RecvID (BatchSendMsgResp.Results resp) = ["u1"; "u3"].
Proof.
  cbv zeta.
  assert (Hm : snd (getSendMsgReq refuseU2Env (BatchSendMsgReq.SendMsg sampleBatchReq)
                      (appendTrace initialSt [EvBindJSON])) =
               Ok (newUserSendMsgReq refuseU2Env sampleSendMsg TextElem)) by reflexivity.
  split; [reflexivity|]. split; [reflexivity|]. split; [exact Hm|].
  destruct (batch_send_partition refuseU2Env 0 sampleBatchReq initialSt
              (newUserSendMsgReq refuseU2Env sampleSendMsg TextElem) eq_refl eq_refl Hm)
    as (resp & H1 & _ & H3 & H4 & _).
  exists resp. split; [exact H1|]. rewrite H3, H4. split; reflexivity.
Defined.

(** When the user directory fails while a send-to-all batch pages through it, the batch answers with that error, having made only directory requests after binding the body. *)
Theorem batch_send_all_directory_error (env : Env) (fuel : nat) (req : BatchSendMsgReq.t)
    (s : St) (e : Error) (Hadmin : IsAdmin env = true)
    (Hall : BatchSendMsgReq.IsSendAll req = true)
    (Hpage : snd (pageAllUserIDs env fuel 1 [] (appendTrace s [EvBindJSON])) = Err e) :
  let r := runHandler (BatchSendMsg env fuel (inr req)) s in
  r = (fst (pageAllUserIDs env fuel 1 [] (appendTrace s [EvBindJSON])), GinError e) /\
  exists new, trace (fst r) = trace s ++ EvBindJSON :: new /\ Forall isPageRequest new.
Proof.
  destruct (only_pageAllUserIDs env fuel 1 [] (appendTrace s [EvBindJSON])) as (new & Ht & Hf).
  destruct (pageAllUserIDs env fuel 1 [] (appendTrace s [EvBindJSON])) as [s2 o] eqn:Hp.
  simpl in Hpage, Ht. subst o.
  assert (Hr : runHandler (BatchSendMsg env fuel (inr req)) s = (s2, GinError e)).
  { unfold runHandler. rewrite BatchSendMsg_steps by done. rewrite Hall.
    unfold bind at 1. cbn -[pageAllUserIDs]. rewrite Hp. reflexivity. }
  cbv zeta. rewrite Hr. split; [done|].
  exists new. simpl. rewrite Ht. simpl. by rewrite <- app_assoc.
Qed.

Lemma batch_send_all_directory_error_witness :
  let req := BatchSendMsgReq.mk sampleSendMsg true [] in
  IsAdmin directoryDownEnv = true /\ BatchSendMsgReq.IsSendAll req = true /\
  snd (pageAllUserIDs directoryDownEnv 5 1 [] (appendTrace initialSt [EvBindJSON])) =
    Err (ErrRPC "directory unavailable") /\
  snd (runHandler (BatchSendMsg directoryDownEnv 5 (inr req)) initialSt) =
    GinError (ErrRPC "directory unavailable").
Proof.
  cbv zeta.
  assert (Hp : snd (pageAllUserIDs directoryDownEnv 5 1 [] (appendTrace initialSt [EvBindJSON]))
               = Err (ErrRPC "directory unavailable")) by reflexivity.
  split; [reflexivity|]. split; [reflexivity|]. split; [exact Hp|].
  destruct (batch_send_all_directory_error directoryDownEnv 5
              (BatchSendMsgReq.mk sampleSendMsg true []) initialSt
              (ErrRPC "directory unavailable") eq_refl eq_refl Hp) as [H _].
  by rewrite H.
Defined.

(** A send-to-all batch with an unsupported content type pages through the whole directory before the content type is rejected. *)
Theorem batch_send_all_content_checked_after_paging (env : Env) (fuel : nat)
    (req : BatchSendMsgReq.t) (s : St) (ids : list string)
    (Hadmin : IsAdmin env = true) (Hall : BatchSendMsgReq.IsSendAll req = true)
    (Hunsupported : ~ In (SendMsg.ContentType (BatchSendMsgReq.SendMsg req))
                         supportedContentTypes)
    (Hpage : snd (pageAllUserIDs env fuel 1 [] (appendTrace s [EvBindJSON])) = Ok ids) :
  runHandler (BatchSendMsg env fuel (inr req)) s =
    (fst (pageAllUserIDs env fuel 1 [] (appendTrace s [EvBindJSON])),
     GinError (ErrWrap "unsupported content type" "ErrArgs")).
Proof.
  assert (Hc : contentContainer (SendMsg.ContentType (BatchSendMsgReq.SendMsg req)) = None).
  { destruct (contentContainer _) eqn:E; [|done].
    exfalso. apply Hunsupported, contentContainer_supported. by rewrite E. }
  unfold runHandler. rewrite BatchSendMsg_steps by done. rewrite Hall.
  destruct (pageAllUserIDs env fuel 1 [] (appendTrace s [EvBindJSON])) as [s2 o] eqn:Hp.
  simpl in Hpage. subst o.
  unfold bind at 1. cbn -[pageAllUserIDs getSendMsgReq]. rewrite Hp.
  unfold bind, getSendMsgReq. rewrite Hc. reflexivity.
Qed.

Lemma batch_send_all_content_checked_after_paging_witness :
  let req := BatchSendMsgReq.mk unsupportedSendMsg true [] in
  let s1 := appendTrace initialSt [EvBindJSON] in
  IsAdmin twoPageEnv = true /\ BatchSendMsgReq.IsSendAll req = true /\
  ~ In (SendMsg.ContentType (BatchSendMsgReq.SendMsg req)) supportedContentTypes /\
  snd (pageAllUserIDs twoPageEnv 3 1 [] s1) = Ok (fullPage ++ ["v"; "w"]) /\
  runHandler (BatchSendMsg twoPageEnv 3 (inr req)) initialSt =
    ({| globals := initialGlobals;
        trace := [EvBindJSON; EvGetAllUserIDs 1 showNumber; EvGetAllUserIDs 2 showNumber] |},
     GinError (ErrWrap "unsupported content type" "ErrArgs")).
Proof.
  cbv zeta.
  assert (Hn : ~ In (SendMsg.ContentType (BatchSendMsgReq.SendMsg
                       (BatchSendMsgReq.mk unsupportedSendMsg true [])))
                    supportedContentTypes)
    by (intros H; apply contentContainer_supported in H; apply H; reflexivity).
  assert (Hp : snd (pageAllUserIDs twoPageEnv 3 1 [] (appendTrace initialSt [EvBindJSON]))
               = Ok (fullPage ++ ["v"; "w"])) by (vm_compute; reflexivity).
  split; [reflexivity|]. split; [reflexivity|]. split; [exact Hn|]. split; [exact Hp|].
  rewrite (batch_send_all_content_checked_after_paging twoPageEnv 3
             (BatchSendMsgReq.mk unsupportedSendMsg true []) initialSt
             (fullPage ++ ["v"; "w"]) eq_refl eq_refl Hn Hp).
  vm_compute. reflexivity.
Defined.

(** Once [SendMessage] has built the envelope, it submits it to the given recipient; a submission error is answered as an RPC error, then a status error likewise, and otherwise the answer is the acknowledgment with its modify map cleared and the diff of the envelope against the acknowledged message. *)
Theorem send_message_submission (env : Env) (req : SendMsgReq.t) (s : St) (md : MsgData.t)
    (Hadmin : IsAdmin env = true)
    (Hmsg : snd (getSendMsgReq env (SendMsgReq.SendMsg req) (appendTrace s [EvBindJSON]))
            = Ok md) :
  let s2 := fst (getSendMsgReq env (SendMsgReq.SendMsg req) (appendTrace s [EvBindJSON])) in
  let sent := setRecvID md (SendMsgReq.RecvID req) in
  let r := runHandler (SendMessage env (inr req)) s in
  match SendMsg env sent with
  | inl e => r = (appendTrace s2 [EvSendMsg sent], GinError (ErrRPC e))
  | inr resp =>
      match SetSendMsgStatus env constant.MsgSendSuccessed with
      | inl e =>
          r = (appendTrace s2 [EvSendMsg sent; EvSetSendMsgStatus constant.MsgSendSuccessed],
               GinError (ErrRPC e))
      | inr _ =>
          let '(modify, g) := getModifyFields (globals s2) (Some sent) (SendMsgResp.Modify resp) in
          r = ({| globals := g;
                  trace := trace s2 ++ [EvSendMsg sent; EvSetSendMsgStatus constant.MsgSendSuccessed] |},
               GinSuccess (PSend (SendMsgResp.mk (SendMsgResp.ServerMsgID resp)
                                    (SendMsgResp.ClientMsgID resp) (SendMsgResp.SendTime resp) None)
                                 modify))
      end
  end.
Proof.
  destruct (getSendMsgReq env (SendMsgReq.SendMsg req) (appendTrace s [EvBindJSON]))
    as [s2 o] eqn:Hg.
  simpl in Hmsg. subst o. cbv zeta. simpl fst.
  assert (Hr : runHandler (SendMessage env (inr req)) s =
    runHandler (respPb <- call (EvSendMsg (setRecvID md (SendMsgReq.RecvID req))) ErrRPC
                          (SendMsg env (setRecvID md (SendMsgReq.RecvID req))) ;;
                call (EvSetSendMsgStatus constant.MsgSendSuccessed) ErrRPC
                     (SetSendMsgStatus env constant.MsgSendSuccessed) ;;
                ginRespSendMsg (setRecvID md (SendMsgReq.RecvID req)) respPb) s2).
  { unfold runHandler, SendMessage, bindJSON, call, emit.
    unfold bind at 1 2 3 4 5. cbn -[getSendMsgReq]. rewrite Hadmin. cbn -[getSendMsgReq].
    change {| globals := globals s; trace := trace s ++ [EvBindJSON] |}
      with (appendTrace s [EvBindJSON]).
    rewrite Hg. reflexivity. }
  rewrite Hr. clear Hr Hg.
  unfold runHandler, call, bind, emit, throw, ret, appendTrace.
  destruct (SendMsg env (setRecvID md (SendMsgReq.RecvID req))) as [e|resp]; simpl; [done|].
  destruct (SetSendMsgStatus env constant.MsgSendSuccessed) as [e|[]]; simpl;
    [by rewrite <- app_assoc|].
  unfold ginRespSendMsg, modifyFields, bind, ret. simpl.
  case_match. simpl. by rewrite <- app_assoc.
Qed.

Lemma send_message_submission_witness :
  let env := sampleEnv true "admin" 1700000000000 acceptAll noDirectory statusOk in
  let md := newUserSendMsgReq env sampleSendMsg TextElem in
  IsAdmin env = true /\
  snd (getSendMsgReq env (SendMsgReq.SendMsg sampleSendMsgReq)
         (appendTrace initialSt [EvBindJSON])) = Ok md /\
  snd (runHandler (SendMessage env (inr sampleSendMsgReq)) initialSt) =
    GinSuccess (PSend (SendMsgResp.mk "srv-1" "cli-1" 1700000000001 None) None).
Proof.
  cbv zeta.
  assert (Hm : snd (getSendMsgReq (sampleEnv true "admin" 1700000000000 acceptAll noDirectory statusOk)
                      (SendMsgReq.SendMsg sampleSendMsgReq) (appendTrace initialSt [EvBindJSON]))
               = Ok (newUserSendMsgReq (sampleEnv true "admin" 1700000000000 acceptAll noDirectory statusOk)
                       sampleSendMsg TextElem)) by reflexivity.
  split; [reflexivity|]. split; [exact Hm|].
  pose proof (send_message_submission
                (sampleEnv true "admin" 1700000000000 acceptAll noDirectory statusOk)
                sampleSendMsgReq initialSt _ eq_refl Hm) as H.
  simpl in H. rewrite H. reflexivity.
Defined.

(** ** Quick send *)

(** Every envelope quick send submits comes from the admin platform, as a user message of markdown content holding the marshalled text, with no options and the body's push info and extension, a non-empty sender, and a recipient user or group. *)
Theorem simple_message_envelope_fields (env : Env) (key : option string)
    (req : SendSingleMsgReq.t) (g : Globals) :
  Forall (fun md =>
     MsgData.SenderPlatformID md = constant.AdminPlatformID /\
     MsgData.MsgFrom md = constant.UserMsgType /\
     MsgData.ContentType md = constant.MarkdownText /\
     JsonMarshalMarkdown env (SendSingleMsgReq.Content req) = inr (MsgData.Content md) /\
     MsgData.Options md = ∅ /\
     MsgData.OfflinePushInfo md = SendSingleMsgReq.OfflinePushInfo req /\
     MsgData.Ex md = SendSingleMsgReq.Ex req /\
     MsgData.SendID md <> "" /\
     (MsgData.RecvID md <> "" \/ MsgData.GroupID md <> ""))
    (sentEnvelopes (trace (fst (runHandler (SendSimpleMessage env key (inr req))
                                           {| globals := g; trace := [] |})))).
Proof.
  apply only_sentEnvelopes_fresh.
  unfold SendSimpleMessage, bindJSON. only_solve; simpl; try done;
    repeat match goal with H : inr _ = inr _ |- _ => injection H as H end;
    subst;
    repeat match goal with
           | H : String.eqb _ _ = false |- _ => apply String.eqb_neq in H
           | H : negb (String.eqb _ _) = true |- _ =>
               apply negb_true_iff, String.eqb_neq in H
           | H : negb (String.eqb _ _) = false |- _ =>
               apply negb_false_iff, String.eqb_eq in H
           | H : (_, _, _) = (_, _, _) |- _ => injection H as <- <- <-
           end;
    simpl; (repeat split); auto.
Qed.

(** Quick send with a key that has a sender but whose selected sender is empty (the key's recipient in a direct chat, the body's sender in a group) fails with 'missing sendID' after the key is decoded, and sends nothing. *)
Theorem simple_message_missing_sender (env : Env) (key : string) (req : SendSingleMsgReq.t)
    (g : Globals) :
  match Base64Decode env key with
  | inr bs =>
      match UnmarshalKey env bs with
      | inr km =>
          let sendID := if String.eqb (KeyMsgData.GroupID km) "" then KeyMsgData.RecvID km
                        else SendSingleMsgReq.SendID req in
          if negb (String.eqb (KeyMsgData.SendID km) "") && String.eqb sendID "" then
            runHandler (SendSimpleMessage env (Some key) (inr req))
                       {| globals := g; trace := [] |} =
              ({| globals := g; trace := [EvBase64Decode key; EvBindJSON; EvUnmarshalKey bs] |},
               GinError (ErrArgs "missing sendID"))
          else True
      | inl _ => True
      end
  | inl _ => True
  end.
Proof.
  destruct (Base64Decode env key) as [e|bs] eqn:Hb; [done|].
  destruct (UnmarshalKey env bs) as [e|km] eqn:Hu; [done|].
  cbv zeta.
  unfold SendSimpleMessage, runHandler, bindJSON, call, emit, throw, ret.
  unfold bind at 1 2 3 4 5 6. simpl. rewrite Hb. simpl. rewrite Hu. simpl.
  destruct (String.eqb (KeyMsgData.SendID km) "") eqn:Hs; simpl; [done|].
  destruct (String.eqb (KeyMsgData.GroupID km) "") eqn:Hg; simpl;
    [destruct (String.eqb (KeyMsgData.RecvID km) "") eqn:He
    |destruct (String.eqb (SendSingleMsgReq.SendID req) "") eqn:He]; simpl; try done;
    rewrite Hs; simpl; rewrite He; done.
Qed.

(** ** The diff engine: what it reports *)




(** ** Building the envelope of a send request *)

(** [getSendMsgReq] fails with the lookup's RPC error when an OA notification's lookup fails, with the decoding error when the content does not decode, and with the validation error when it does not validate, and otherwise returns the envelope of the decoded content; the envelope's content is the serialized request content (wrapped as a notification detail for OA) and its options follow the two toggles. *)
Theorem get_send_msg_req_outcomes (env : Env) (req : SendMsg.t) (s : St) :
  let ct := SendMsg.ContentType req in
  let isOA := ct =? constant.OANotification in
  let req' := if isOA then SendMsg.setSessionType req constant.NotificationChatType else req in
  (isOA = true -> forall e, GetNotificationByID env (SendMsg.SendID req) = inl e ->
     getSendMsgReq env req s =
       (appendTrace s [EvGetNotificationByID (SendMsg.SendID req)], Err (ErrRPC e))) /\
  (forall data0, contentContainer ct = Some data0 ->
   (isOA = true -> GetNotificationByID env (SendMsg.SendID req) = inr tt) ->
     (forall e, WeakDecode env (SendMsg.Content req) data0 = inl e ->
        snd (getSendMsgReq env req s) = Err (ErrWrap "failed to decode message content" e)) /\
     (forall d e, WeakDecode env (SendMsg.Content req) data0 = inr d ->
        ValidateStruct env d = inl e ->
        snd (getSendMsgReq env req s) = Err (ErrWrap "validation error" e)) /\
     (forall d, WeakDecode env (SendMsg.Content req) data0 = inr d ->
        ValidateStruct env d = inr tt ->
        snd (getSendMsgReq env req s) = Ok (newUserSendMsgReq env req' d))) /\
  (forall md, snd (getSendMsgReq env req s) = Ok md ->
     MsgData.Content md =
       bytesOfString
         (if isOA then StructToJsonString env
                         (JObj [("detail", JStr (StructToJsonString env (SendMsg.Content req)))])
          else StructToJsonString env (SendMsg.Content req)) /\
     MsgData.Options md =
       sendOptions ∅ (SendMsg.IsOnlineOnly req) (SendMsg.NotOfflinePush req)).
Proof.
  cbv zeta. split; [|split].
  - intros Hoa e He.
    assert (Hc : contentContainer (SendMsg.ContentType req) = Some OANotificationElem).
    { apply Z.eqb_eq in Hoa. rewrite Hoa. reflexivity. }
    unfold getSendMsgReq, call, bind, emit, throw, ret, appendTrace.
    rewrite Hc, Hoa. simpl. rewrite He. reflexivity.
  - intros data0 Hc Hlook.
    unfold getSendMsgReq, call, bind, emit, throw, ret. rewrite Hc.
    destruct (SendMsg.ContentType req =? constant.OANotification) eqn:Hoa; simpl;
      [rewrite (Hlook eq_refl); simpl|];
      (split; [intros e He; rewrite He; reflexivity|]);
      (split; [intros d e Hd Hv; rewrite Hd; simpl; rewrite Hv; reflexivity|]);
      intros d Hd Hv; rewrite Hd; simpl; rewrite Hv; reflexivity.
  - intros md.
    unfold getSendMsgReq, call, bind, emit, throw, ret.
    destruct (contentContainer _); [|simpl; discriminate].
    destruct (SendMsg.ContentType req =? constant.OANotification) eqn:Hoa; simpl.
    + destruct (GetNotificationByID env _); simpl; [discriminate|].
      destruct (WeakDecode env _ _); simpl; [discriminate|].
      destruct (ValidateStruct env _); simpl; [discriminate|].
      intros [= <-]. unfold newUserSendMsgReq. simpl. rewrite Hoa. done.
    + destruct (WeakDecode env _ _); simpl; [discriminate|].
      destruct (ValidateStruct env _); simpl; [discriminate|].
      intros [= <-]. unfold newUserSendMsgReq. simpl. rewrite Hoa. done.
Qed.


Lemma only_getSendMsgReq (env : Env) (req : SendMsg.t) :
  only isLookup (getSendMsgReq env req).
Proof. unfold getSendMsgReq. only_solve; simpl; done. Qed.

Lemma sentEnvelopes_lookups (evs : list Event) :
  Forall isLookup evs -> sentEnvelopes evs = [].
Proof.
  induction evs as [|ev evs IH]; intros H; [done|].
  inversion H as [|? ? Hev Hrest]; subst. destruct ev; try done. simpl. by apply IH.
Qed.

Lemma getSendMsgReq_sends_nothing (env : Env) (req : SendMsg.t) (s : St) :
  sentEnvelopes (trace (fst (getSendMsgReq env req s))) = sentEnvelopes (trace s).
Proof.
  destruct (only_getSendMsgReq env req s) as (new & Ht & Hf).
  rewrite Ht. unfold sentEnvelopes. rewrite flat_map_app.
  fold (sentEnvelopes new). rewrite (sentEnvelopes_lookups new Hf). apply app_nil_r.
Qed.

(** When an app manager's message cannot be built, [SendMessage] and a listed [BatchSendMsg] answer with that error and submit nothing. *)
Theorem rejected_message_not_sent (env : Env) (s : St) (Hadmin : IsAdmin env = true) :
  let s1 := appendTrace s [EvBindJSON] in
  (forall (req : SendMsgReq.t) (e : Error),
     snd (getSendMsgReq env (SendMsgReq.SendMsg req) s1) = Err e ->
     runHandler (SendMessage env (inr req)) s =
       (fst (getSendMsgReq env (SendMsgReq.SendMsg req) s1), GinError e) /\
     sentEnvelopes (trace (fst (runHandler (SendMessage env (inr req)) s))) =
       sentEnvelopes (trace s)) /\
  (forall (fuel : nat) (req : BatchSendMsgReq.t) (e : Error),
     BatchSendMsgReq.IsSendAll req = false ->
     snd (getSendMsgReq env (BatchSendMsgReq.SendMsg req) s1) = Err e ->
     runHandler (BatchSendMsg env fuel (inr req)) s =
       (fst (getSendMsgReq env (BatchSendMsgReq.SendMsg req) s1), GinError e) /\
     sentEnvelopes (trace (fst (runHandler (BatchSendMsg env fuel (inr req)) s))) =
       sentEnvelopes (trace s)).
Proof.
  cbv zeta. split.
  - intros req e Herr.
    pose proof (getSendMsgReq_sends_nothing env (SendMsgReq.SendMsg req)
                  (appendTrace s [EvBindJSON])) as Hn.
    destruct (getSendMsgReq env (SendMsgReq.SendMsg req) (appendTrace s [EvBindJSON]))
      as [s2 o] eqn:Hg.
    simpl in Herr, Hn. subst o.
    assert (Hr : runHandler (SendMessage env (inr req)) s = (s2, GinError e)).
    { unfold runHandler, SendMessage, bindJSON, call, emit.
      unfold bind at 1 2 3 4 5. cbn -[getSendMsgReq]. rewrite Hadmin. cbn -[getSendMsgReq].
      change {| globals := globals s; trace := trace s ++ [EvBindJSON] |}
        with (appendTrace s [EvBindJSON]).
      rewrite Hg. reflexivity. }
    rewrite Hr. split; [done|]. simpl. rewrite Hn.
    unfold sentEnvelopes, appendTrace. simpl. rewrite flat_map_app. apply app_nil_r.
  - intros fuel req e Hlist Herr.
    pose proof (getSendMsgReq_sends_nothing env (BatchSendMsgReq.SendMsg req)
                  (appendTrace s [EvBindJSON])) as Hn.
    assert (Hr : runHandler (BatchSendMsg env fuel (inr req)) s =
                 (fst (getSendMsgReq env (BatchSendMsgReq.SendMsg req)
                         (appendTrace s [EvBindJSON])), GinError e)).
    { unfold runHandler. rewrite BatchSendMsg_steps by done. rewrite Hlist.
      destruct (getSendMsgReq env (BatchSendMsgReq.SendMsg req) (appendTrace s [EvBindJSON]))
        as [s2 o] eqn:Hg.
      simpl in Herr. subst o.
      unfold bind, ret. cbn -[getSendMsgReq sendToEach]. rewrite Hg. reflexivity. }
    rewrite Hr. split; [done|]. simpl. rewrite Hn.
    unfold sentEnvelopes, appendTrace. simpl. rewrite flat_map_app. apply app_nil_r.
Qed.

Lemma rejected_message_not_sent_witness :
  let env := sampleEnv true "admin" 1700000000000 acceptAll noDirectory statusOk in
  IsAdmin env = true /\
  snd (runHandler (SendMessage env (inr (SendMsgReq.mk "u2" unsupportedSendMsg))) initialSt) =
    GinError (ErrWrap "unsupported content type" "ErrArgs") /\
  sentEnvelopes (trace (fst (runHandler
    (SendMessage env (inr (SendMsgReq.mk "u2" unsupportedSendMsg))) initialSt))) = [].
Proof.
  cbv zeta. split; [reflexivity|].
  destruct (rejected_message_not_sent
              (sampleEnv true "admin" 1700000000000 acceptAll noDirectory statusOk)
              initialSt eq_refl) as [H _].
  destruct (H (SendMsgReq.mk "u2" unsupportedSendMsg)
              (ErrWrap "unsupported content type" "ErrArgs") eq_refl) as [H1 H2].
  split; [rewrite H1; reflexivity|rewrite H2; reflexivity].
Defined.
